(** * ToonOut background-removal service: a shallow embedding of [main.py]

    The service is a FastAPI application with three routes of its own, next
    to the documentation routes of the framework.  Its own logic is
    the archive pipeline of [cutout_zip], the name derivation of the result
    entries, the static key check [verify_api_key], the lazy model cache
    [load_model] and the mask post-processing of [cutout_rgba].  The neural
    network, the image codecs, the resampling kernels and the ZIP parser are
    external libraries: they are the fields of a [Backend] record, and every
    statement below holds for an arbitrary backend.

    Conventions.
    - Python [str] is [string]; [str.lower] is the ASCII lowering.
    - A raised exception is the [Raise] branch of [result]; code that also
      touches the module global [_model] lives in the monad [M], which
      threads a [World].
    - [print] calls (logging) are not modelled. *)

From Stdlib Require Import ZArith List String Ascii Bool Lia QArith.
From Stdlib Require Import Strings.Byte DecimalString.
From Stdlib Require Import SpecFloat.
Import ListNotations.

Local Open Scope Z_scope.

(* ------------------------------------------------------------------ *)
(** ** Python strings and [os.path] (posixpath) *)

Module Py.

Local Open Scope string_scope.

(** [str.lower] on one ASCII character: 'A'..'Z' move to 'a'..'z'. *)
Definition lower_char (c : ascii) : ascii :=
  let n := nat_of_ascii c in
  if (Nat.leb 65 n && Nat.leb n 90)%bool then ascii_of_nat (n + 32) else c.

Fixpoint lower (s : string) : string :=
  match s with
  | EmptyString => EmptyString
  | String c s' => String (lower_char c) (lower s')
  end.

(** [s.endswith(suffix)] *)
Definition endswith (s suffix : string) : bool :=
  let n := String.length s in
  let k := String.length suffix in
  (Nat.leb k n && String.eqb (substring (n - k) k s) suffix)%bool.

(** [s.rfind(c)] for a one-character [c]: the highest index, or -1. *)
Fixpoint rfind_from (s : string) (c : ascii) (i : Z) (found : Z) : Z :=
  match s with
  | EmptyString => found
  | String a s' => rfind_from s' c (i + 1) (if Ascii.eqb a c then i else found)
  end.

Definition rfind (s : string) (c : ascii) : Z := rfind_from s c 0 (-1).

(** Slices [p[:i]], [p[i:]] and [p[i:i+1]] for an index [0 <= i], the only
    ones the path functions take. *)
Definition slice_to (p : string) (i : Z) : string :=
  substring 0 (Z.to_nat i) p.

Definition slice_from (p : string) (i : Z) : string :=
  substring (Z.to_nat i) (String.length p - Z.to_nat i) p.

Definition slice_one (p : string) (i : Z) : string :=
  substring (Z.to_nat i) 1 p.

(** [os.path.basename(p)]: [i = p.rfind('/') + 1; return p[i:]]. *)
Definition basename (p : string) : string :=
  slice_from p (rfind p "/" + 1).

(** The [while filenameIndex < dotIndex] loop of [genericpath._splitext]:
    [true] when it returns the split from inside the loop (a character
    other than '.' stands before the last dot), [false] when the loop runs
    out.  [steps] is [dotIndex - filenameIndex], the number of iterations
    left. *)
Fixpoint splitext_loop (p : string) (filenameIndex : Z) (steps : nat) : bool :=
  match steps with
  | O => false
  | S k =>
      if negb (String.eqb (slice_one p filenameIndex) ".") then true
      else splitext_loop p (filenameIndex + 1) k
  end.

(** [os.path.splitext(p)] with [sep = '/'], [altsep = None], [extsep = '.']. *)
Definition splitext (p : string) : string * string :=
  let sepIndex := rfind p "/" in
  let dotIndex := rfind p "." in
  if Z.ltb sepIndex dotIndex
     && splitext_loop p (sepIndex + 1) (Z.to_nat (dotIndex - (sepIndex + 1)))
  then (slice_to p dotIndex, slice_from p dotIndex)
  else (p, EmptyString).

(** [s.rstrip(c)] for a one-character [c]: the trailing run of [c] is
    dropped. *)
Fixpoint rstrip (s : string) (c : ascii) : string :=
  match s with
  | EmptyString => EmptyString
  | String a s' =>
      let r := rstrip s' c in
      if (String.eqb r "" && Ascii.eqb a c)%bool then EmptyString else String a r
  end.

(** [x in xs] for a collection of strings. *)
Definition str_in (x : string) (xs : list string) : bool :=
  existsb (String.eqb x) xs.

End Py.

(* ------------------------------------------------------------------ *)
(** ** Exceptions *)

(** A raised Python exception.  FastAPI's [HTTPException] carries the status
    and the detail of the response it stands for; of any other exception the
    class name, which [except <Class>] matches on, and the message are
    kept. *)
Inductive exn : Type :=
| HTTPException (status_code : Z) (detail : string)
| PyExc (cls : string) (msg : string).

Definition exn_class (e : exn) : string :=
  match e with
  | HTTPException _ _ => "HTTPException"%string
  | PyExc c _ => c
  end.

(** Decimal digits of a status code, for [str(HTTPException)]. *)
Definition str_status (n : Z) : string :=
  NilEmpty.string_of_uint (N.to_uint (Z.to_N n)).

(** [str(e)] *)
Definition str_exn (e : exn) : string :=
  match e with
  | HTTPException s d => (str_status s ++ ": " ++ d)%string
  | PyExc _ m => m
  end.

(** The outcome of a call that may raise. *)
Inductive result (A : Type) : Type :=
| Ok (a : A)
| Raise (e : exn).

Arguments Ok {A} a.
Arguments Raise {A} e.

Definition rbind {A B : Type} (r : result A) (k : A -> result B) : result B :=
  match r with
  | Ok a => k a
  | Raise e => Raise e
  end.

(** Truth value of an [Optional[str]]: [None] and the empty string are
    false. *)
Definition truthy (o : option string) : bool :=
  match o with
  | Some s => negb (String.eqb s "")
  | None => false
  end.

(* ------------------------------------------------------------------ *)
(** ** Python floats (binary64) against integers *)

Module PyFloat.

Definition float : Type := spec_float.

Definition prec : Z := 53.
Definition emax : Z := 1024.

(** [float(n)] for an integer that binary64 holds exactly (all the
    integers below are at most 255 in magnitude). *)
Definition of_int (n : Z) : float := binary_normalize prec emax n 0 false.

(** [x * y] on floats. *)
Definition mul (x y : float) : float := SFmul prec emax x y.

(** [x * n] for a float [x] and an int [n]: the int is converted first. *)
Definition mul_int (x : float) (n : Z) : float := mul x (of_int n).

(** Python compares a float with an int by value, exactly; a NaN is
    unordered ([None]).  The comparison of [x] with [n]: *)
Definition compare_int (x : float) (n : Z) : option comparison :=
  match x with
  | S754_nan => None
  | S754_infinity s => Some (if s then Lt else Gt)
  | S754_zero _ => Some (0 ?= n)
  | S754_finite s m e =>
      let sm := if s then Z.neg m else Z.pos m in
      Some (if 0 <=? e then (sm * 2 ^ e ?= n) else (sm ?= n * 2 ^ (- e)))
  end.

(** [n >= x] for an int [n] and a float [x]. *)
Definition int_ge (n : Z) (x : float) : bool :=
  match compare_int x n with
  | Some (Lt | Eq) => true
  | _ => false
  end.

(** [x > n] and [x <= n] for a float [x] and an int [n]. *)
Definition gt_int (x : float) (n : Z) : bool :=
  match compare_int x n with
  | Some Gt => true
  | _ => false
  end.

Definition le_int (x : float) (n : Z) : bool :=
  match compare_int x n with
  | Some (Lt | Eq) => true
  | _ => false
  end.

End PyFloat.

(* ------------------------------------------------------------------ *)
(** ** Images (PIL) and tensors (torch) *)

(** The image modes of PIL that matter for band counts. *)
Inductive Mode : Type :=
| mode_1 | mode_L | mode_P | mode_LA | mode_RGB | mode_RGBA | mode_CMYK.

Definition bands (m : Mode) : nat :=
  match m with
  | mode_1 | mode_L | mode_P => 1
  | mode_LA => 2
  | mode_RGB => 3
  | mode_RGBA | mode_CMYK => 4
  end%nat.

Definition Mode_eqb (a b : Mode) : bool :=
  match a, b with
  | mode_1, mode_1 | mode_L, mode_L | mode_P, mode_P | mode_LA, mode_LA
  | mode_RGB, mode_RGB | mode_RGBA, mode_RGBA | mode_CMYK, mode_CMYK => true
  | _, _ => false
  end.

(** A loaded raster image: 8-bit samples, [px x y] the bands of the pixel in
    column [x] and row [y]; [exif_orientation] is EXIF tag 0x0112 when the
    file carries it.  The EXIF block of a file is only parsed when it is
    asked for: [exif_error] is the exception that [im.getexif()] raises on
    this image when its block is malformed ([SyntaxError] from the TIFF
    reader), [None] when the block is sound or absent. *)
Record Image : Type := {
  mode : Mode;
  width : nat;
  height : nat;
  exif_orientation : option Z;
  exif_error : option exn;
  px : nat -> nat -> list byte
}.

Definition size (im : Image) : nat * nat := (width im, height im).

Definition band (k : nat) (p : list byte) : byte := nth k p x00.

(** The sample as the Python int that [Image.point] hands to its function. *)
Definition int_of_byte (b : byte) : Z := Z.of_N (Byte.to_N b).

Definition size_eqb (a b : nat * nat) : bool :=
  (Nat.eqb (fst a) (fst b) && Nat.eqb (snd a) (snd b))%bool.

Inductive Resampling : Type := NEAREST | BILINEAR | BICUBIC | LANCZOS.

Inductive Transpose : Type :=
| FLIP_LEFT_RIGHT | FLIP_TOP_BOTTOM | ROTATE_90 | ROTATE_180 | ROTATE_270
| TRANSPOSE | TRANSVERSE.

(** A tensor over an element type [F]: its shape and its elements by
    multi-index. *)
Record Tensor (F : Type) : Type := {
  shape : list nat;
  elem : list nat -> F
}.

Arguments shape {F} t.
Arguments elem {F} t idx.

(* ------------------------------------------------------------------ *)
(** ** ZIP archives (zipfile) *)

(** One member of a read archive.  [zi_data] is what reading the member to
    its end gives: the bytes, or the exception raised ([BadZipFile] on a CRC
    mismatch, others for an encrypted member or an unsupported method). *)
Record ZipInfo : Type := {
  zi_filename : string;
  file_size : N;
  zi_data : result (list byte)
}.

(** An archive opened for reading: its members in central-directory order. *)
Record ZipFile : Type := { filelist : list ZipInfo }.

(** An archive being written: the entries in the order of the [writestr]
    calls.  Names may repeat. *)
Definition ZipOut : Type := list (string * list byte).

(* ------------------------------------------------------------------ *)
(** ** The external libraries *)

(** What the service takes from torch, torchvision, PIL's codecs and
    resampling, BiRefNet and the ZIP reader.  Nothing is assumed of these
    functions. *)
Record Backend : Type := {
  (** [torch.cuda.is_available()] *)
  cuda_is_available : bool;
  (** tensor elements *)
  F : Type;
  (** [ToTensor]: a sample divided by 255 *)
  F_of_byte : byte -> F;
  (** [Normalize]: [(v - mean) / std] *)
  F_normalize : Q -> Q -> F -> F;
  (** [.to(DEVICE, dtype=DTYPE)] on one element; the flag is [DEVICE == "cuda"] *)
  F_to_dtype : bool -> F -> F;
  (** [ToPILImage] on a float tensor: [mul(255).byte()] on one element *)
  F_to_byte : F -> byte;
  (** network objects and checkpoints *)
  Module_ : Type;
  StateDict : Type;
  (** [BiRefNet(bb_pretrained=...)] *)
  BiRefNet : bool -> result Module_;
  (** [torch.load(path, map_location="cpu")] *)
  torch_load : string -> result StateDict;
  check_state_dict : StateDict -> StateDict;
  (** [model.load_state_dict(state, strict=False)] *)
  load_state_dict : Module_ -> StateDict -> result Module_;
  (** [model.eval().to(device)] *)
  eval_to : Module_ -> string -> result Module_;
  (** [model.half()] *)
  half : Module_ -> Module_;
  (** [model(x)[-1].sigmoid().float().cpu()] *)
  forward : Module_ -> Tensor F -> result (Tensor F);
  (** [Image.open(io.BytesIO(data))] followed by [im.load()] *)
  Image_open : list byte -> result Image;
  (** the samples of [im.convert(mode)] at a position, for a mode other than
      the image's own *)
  convert_px : Mode -> Image -> nat -> nat -> list byte;
  (** the pixel of [im.resize((w, h), resample)] at a position *)
  resample_px : Resampling -> Image -> nat -> nat -> nat -> nat -> list byte;
  (** [im.save(buf, format="PNG", optimize=True)] *)
  save_png : Image -> result (list byte);
  (** [zipfile.ZipFile(io.BytesIO(raw), "r")] *)
  ZipFile_open : list byte -> result ZipFile
}.

(* ------------------------------------------------------------------ *)
(** ** Configuration (module constants) *)

(** [API_KEY = os.environ.get("TOONOUT_API_KEY")], read once at import. *)
Record Config : Type := { API_KEY : option string }.

Definition WEIGHTS_PATH : string := "/app/weights/birefnet_finetuned_toonout.pth".

(** [IMAGE_SIZE = (1024, 1024)], in torchvision's (height, width) order. *)
Definition IMAGE_SIZE : nat * nat := (1024, 1024)%nat.

Definition NORMALIZE_MEAN : list Q := [485 # 1000; 456 # 1000; 406 # 1000]%Q.
Definition NORMALIZE_STD : list Q := [229 # 1000; 224 # 1000; 225 # 1000]%Q.

Section Service.

Variable B : Backend.

(** [DEVICE = "cuda" if torch.cuda.is_available() else "cpu"] *)
Definition DEVICE : string :=
  if cuda_is_available B then "cuda"%string else "cpu"%string.

(* ---------------------------------------------------------------- *)
(** *** PIL operations *)

Definition copy (im : Image) : Image := im.

(** [im.transpose(method)] *)
Definition transpose (im : Image) (method : Transpose) : Image :=
  let w := width im in
  let h := height im in
  let p := px im in
  match method with
  | FLIP_LEFT_RIGHT =>
      {| mode := mode im; width := w; height := h;
         exif_orientation := exif_orientation im;
         exif_error := exif_error im;
         px := fun x y => p (w - 1 - x) y |}
  | FLIP_TOP_BOTTOM =>
      {| mode := mode im; width := w; height := h;
         exif_orientation := exif_orientation im;
         exif_error := exif_error im;
         px := fun x y => p x (h - 1 - y) |}
  | ROTATE_180 =>
      {| mode := mode im; width := w; height := h;
         exif_orientation := exif_orientation im;
         exif_error := exif_error im;
         px := fun x y => p (w - 1 - x) (h - 1 - y) |}
  | ROTATE_90 =>
      {| mode := mode im; width := h; height := w;
         exif_orientation := exif_orientation im;
         exif_error := exif_error im;
         px := fun x y => p (w - 1 - y) x |}
  | ROTATE_270 =>
      {| mode := mode im; width := h; height := w;
         exif_orientation := exif_orientation im;
         exif_error := exif_error im;
         px := fun x y => p y (h - 1 - x) |}
  | TRANSPOSE =>
      {| mode := mode im; width := h; height := w;
         exif_orientation := exif_orientation im;
         exif_error := exif_error im;
         px := fun x y => p y x |}
  | TRANSVERSE =>
      {| mode := mode im; width := h; height := w;
         exif_orientation := exif_orientation im;
         exif_error := exif_error im;
         px := fun x y => p (w - 1 - y) (h - 1 - x) |}
  end%nat.

(** The table of [ImageOps.exif_transpose]: orientation to method. *)
Definition exif_method (orientation : Z) : option Transpose :=
  if orientation =? 2 then Some FLIP_LEFT_RIGHT
  else if orientation =? 3 then Some ROTATE_180
  else if orientation =? 4 then Some FLIP_TOP_BOTTOM
  else if orientation =? 5 then Some TRANSPOSE
  else if orientation =? 6 then Some ROTATE_270
  else if orientation =? 7 then Some TRANSVERSE
  else if orientation =? 8 then Some ROTATE_90
  else None.

(** [image.getexif().get(ExifTags.Base.Orientation, 1)]: parsing the EXIF
    block raises when it is malformed; a sound block without the tag, or no
    block, gives 1. *)
Definition getexif_orientation (image : Image) : result Z :=
  match exif_error image with
  | Some e => Raise e
  | None => Ok (match exif_orientation image with Some o => o | None => 1 end)
  end.

(** [ImageOps.exif_transpose(image)]: the image turned as its EXIF
    orientation says, with the tag removed; a copy when there is nothing
    to do.  It raises what [getexif] raises. *)
Definition exif_transpose (image : Image) : result Image :=
  rbind (getexif_orientation image) (fun orientation =>
  match exif_method orientation with
  | Some method =>
      let t := transpose image method in
      Ok {| mode := mode t; width := width t; height := height t;
            exif_orientation := None; exif_error := None; px := px t |}
  | None => Ok (copy image)
  end).

(** [im.convert(m)] *)
Definition convert (im : Image) (m : Mode) : Image :=
  if Mode_eqb (mode im) m then copy im
  else
    {| mode := m; width := width im; height := height im;
       exif_orientation := exif_orientation im;
       exif_error := exif_error im;
       px := fun x y =>
               let d := convert_px B m im x y in
               map (fun k => band k d) (seq 0 (bands m)) |}.

(** [im.resize(size, resample)] with [size = (w, h)] *)
Definition resize (im : Image) (sz : nat * nat) (resample : Resampling) : Image :=
  if size_eqb (size im) sz then copy im
  else
    {| mode := mode im; width := fst sz; height := snd sz;
       exif_orientation := exif_orientation im;
       exif_error := exif_error im;
       px := resample_px B resample im (fst sz) (snd sz) |}.

(** The sample for a value the lookup function returned. *)
Definition byte_of_int (v : Z) : byte :=
  match Byte.of_N (Z.to_N v) with
  | Some b => b
  | None => x00
  end.

(** [im.point(f, mode="L")] on an image of mode L: every sample goes
    through the table [f(0)], ..., [f(255)]. *)
Definition point (im : Image) (f : Z -> Z) : Image :=
  {| mode := mode_L; width := width im; height := height im;
     exif_orientation := exif_orientation im;
     exif_error := exif_error im;
     px := fun x y => [byte_of_int (f (int_of_byte (band 0 (px im x y))))] |}.

(** [im.putalpha(alpha)] on an RGB image with an L image as alpha layer:
    the image becomes RGBA and the layer its fourth band.  Layers of
    another size are refused ("images do not match"). *)
Definition putalpha (im alpha : Image) : result Image :=
  if negb (Mode_eqb (mode alpha) mode_L || Mode_eqb (mode alpha) mode_1) then
    Raise (PyExc "ValueError" "illegal image mode")
  else if negb (size_eqb (size alpha) (size im)) then
    Raise (PyExc "ValueError" "images do not match")
  else
    let rgba := convert im mode_RGBA in
    Ok {| mode := mode_RGBA; width := width im; height := height im;
          exif_orientation := exif_orientation im;
          exif_error := exif_error im;
          px := fun x y =>
                  let p := px rgba x y in
                  [band 0 p; band 1 p; band 2 p; band 0 (px alpha x y)] |}.

(** The alpha sample of an RGBA image. *)
Definition alpha_at (im : Image) (x y : nat) : byte := band 3 (px im x y).

(* ---------------------------------------------------------------- *)
(** *** torchvision transforms and tensor indexing *)

(** [transforms.Resize(size)] on a PIL image: [size] is (height, width) and
    PIL takes (width, height); the filter is bilinear. *)
Definition Resize (sz : nat * nat) (im : Image) : Image :=
  resize im (snd sz, fst sz) BILINEAR.

(** [transforms.ToTensor()] on an 8-bit PIL image: a C x H x W tensor of the
    samples divided by 255. *)
Definition ToTensor (im : Image) : Tensor (F B) :=
  {| shape := [bands (mode im); height im; width im];
     elem := fun idx =>
               match idx with
               | [c; y; x] => F_of_byte B (band c (px im x y))
               | _ => F_of_byte B x00
               end |}.

(** [transforms.Normalize(mean, std)] on a C x H x W tensor.  The channel
    count has to be that of [mean]; a tensor of fewer than three dimensions
    is refused.  (Batched tensors do not reach it here and are refused
    too.) *)
Definition Normalize (mean std : list Q) (t : Tensor (F B)) : result (Tensor (F B)) :=
  match shape t with
  | [c; h; w] =>
      if Nat.eqb c (List.length mean) then
        Ok {| shape := [c; h; w];
              elem := fun idx =>
                        match idx with
                        | [ci; _; _] =>
                            F_normalize B (nth ci mean 0%Q) (nth ci std 1%Q) (elem t idx)
                        | _ => elem t idx
                        end |}
      else Raise (PyExc "RuntimeError" "The size of tensor a must match the size of tensor b")
  | _ => Raise (PyExc "ValueError" "Expected tensor to be a tensor image of size (..., C, H, W)")
  end.

(** [preprocess = Compose([Resize(IMAGE_SIZE), ToTensor(), Normalize(...)])] *)
Definition preprocess (im : Image) : result (Tensor (F B)) :=
  Normalize NORMALIZE_MEAN NORMALIZE_STD (ToTensor (Resize IMAGE_SIZE im)).

(** [t.unsqueeze(0)] *)
Definition unsqueeze0 (t : Tensor (F B)) : Tensor (F B) :=
  {| shape := 1%nat :: shape t;
     elem := fun idx => elem t (tl idx) |}.

(** [t.to(DEVICE, dtype=DTYPE)] *)
Definition to_device (t : Tensor (F B)) : Tensor (F B) :=
  {| shape := shape t;
     elem := fun idx => F_to_dtype B (cuda_is_available B) (elem t idx) |}.

(** [t[0, 0]] on a tensor of at least two dimensions. *)
Definition index00 (t : Tensor (F B)) : result (Tensor (F B)) :=
  match shape t with
  | S _ :: S _ :: rest =>
      Ok {| shape := rest; elem := fun idx => elem t (0 :: 0 :: idx)%nat |}
  | _ :: _ :: _ => Raise (PyExc "IndexError" "index 0 is out of bounds")
  | _ => Raise (PyExc "IndexError" "too many indices for tensor")
  end.

(** [transforms.ToPILImage()] on a float tensor: a 2-D tensor is one band;
    the samples are [mul(255).byte()]. *)
Definition ToPILImage (t : Tensor (F B)) : result Image :=
  match shape t with
  | [h; w] =>
      Ok {| mode := mode_L; width := w; height := h; exif_orientation := None;
            exif_error := None;
            px := fun x y => [F_to_byte B (elem t [y; x])] |}
  | [c; h; w] =>
      let m :=
        match c with
        | 1 => Some mode_L
        | 2 => Some mode_LA
        | 3 => Some mode_RGB
        | 4 => Some mode_RGBA
        | _ => None
        end%nat in
      match m with
      | Some m =>
          Ok {| mode := m; width := w; height := h; exif_orientation := None;
                exif_error := None;
                px := fun x y =>
                        map (fun k => F_to_byte B (elem t [k; y; x])) (seq 0 c) |}
      | None => Raise (PyExc "ValueError" "pic should not have > 4 channels")
      end
  | _ => Raise (PyExc "ValueError" "pic should be 2/3 dimensional")
  end.

(* ---------------------------------------------------------------- *)
(** *** Process state and the monad of the handlers *)

(** A loaded network object.  [obj_id] stands for the identity of the Python
    object: the number of constructor calls made before its own. *)
Record ModelObj : Type := { obj_id : nat; net : Module_ B }.

(** What the loader does to the outside, in order. *)
Inductive Event : Type :=
| Ev_BiRefNet                  (* a network was constructed *)
| Ev_torch_load (path : string) (* a checkpoint was read *).

(** The process state: the module global [_model] and the trace of loader
    events. *)
Record World : Type := { _model : option ModelObj; events : list Event }.

Definition initial_world : World := {| _model := None; events := [] |}.

(** A computation that reads and writes the process state and may raise. *)
Definition M (A : Type) : Type := World -> World * result A.

Definition ret {A : Type} (a : A) : M A := fun w => (w, Ok a).

Definition bind {A C : Type} (m : M A) (k : A -> M C) : M C :=
  fun w =>
    match m w with
    | (w', Ok a) => k a w'
    | (w', Raise e) => (w', Raise e)
    end.

Definition raise {A : Type} (e : exn) : M A := fun w => (w, Raise e).

Definition lift {A : Type} (r : result A) : M A := fun w => (w, r).

(** [try: body except Exception as e: handler(e)] *)
Definition try_except {A : Type} (body : M A) (handler : exn -> M A) : M A :=
  fun w =>
    match body w with
    | (w', Ok a) => (w', Ok a)
    | (w', Raise e) => handler e w'
    end.

Definition log_event (ev : Event) : M unit :=
  fun w => ({| _model := _model w; events := events w ++ [ev] |}, Ok tt).

Definition set_model (m : ModelObj) : M unit :=
  fun w => ({| _model := Some m; events := events w |}, Ok tt).

Definition count_constructed (w : World) : nat :=
  List.length (filter (fun ev => match ev with Ev_BiRefNet => true | _ => false end)
                 (events w)).

Local Notation "x <- c ;; k" := (bind c (fun x => k))
  (at level 61, c at next level, right associativity).

(* ---------------------------------------------------------------- *)
(** *** [load_model] *)

(** The body of [load_model] below its [if _model is not None] test: build
    the network, read the fine-tuned weights, move it to the device, store
    it in [_model].  (The cuDNN benchmark flag and the timing are left
    out.) *)
Definition load_model_fresh : M ModelObj :=
  fun w =>
    (_ <- log_event Ev_BiRefNet ;;
     model <- lift (BiRefNet B false) ;;
     _ <- log_event (Ev_torch_load WEIGHTS_PATH) ;;
     state <- lift (torch_load B WEIGHTS_PATH) ;;
     model <- lift (load_state_dict B model (check_state_dict B state)) ;;
     model <- lift (eval_to B model DEVICE) ;;
     let model := if String.eqb DEVICE "cuda" then half B model else model in
     let obj := {| obj_id := count_constructed w; net := model |} in
     _ <- set_model obj ;;
     ret obj) w.

Definition load_model : M ModelObj :=
  fun w =>
    match _model w with
    | Some m => (w, Ok m)
    | None => load_model_fresh w
    end.

(* ---------------------------------------------------------------- *)
(** *** [cutout_rgba] *)

(** Lines 100 to 109: preprocess, run the network, turn the prediction into
    an L image and resize it to [original_size].  This is the soft mask. *)
Definition predict_mask (model : ModelObj) (rgb : Image) (original_size : nat * nat)
  : result Image :=
  rbind (preprocess rgb) (fun t =>
  let x := to_device (unsqueeze0 t) in
  rbind (forward B (net model) x) (fun out =>
  rbind (index00 out) (fun pred =>
  rbind (ToPILImage pred) (fun mask =>
  Ok (convert (resize mask original_size BILINEAR) mode_L))))).

(** The function given to [mask.point]:
    [lambda p: 255 if p >= threshold * 255 else 0]. *)
Definition threshold_lut (threshold : PyFloat.float) (p : Z) : Z :=
  if PyFloat.int_ge p (PyFloat.mul_int threshold 255) then 255 else 0.

(** Lines 111 to 113. *)
Definition apply_threshold (threshold : option PyFloat.float) (mask : Image) : Image :=
  match threshold with
  | Some t => point mask (threshold_lut t)
  | None => mask
  end.

Definition cutout_rgba (img : Image) (threshold : option PyFloat.float) : M Image :=
  model <- load_model ;;
  transposed <- lift (exif_transpose img) ;;
  let rgb := convert transposed mode_RGB in
  let original_size := size rgb in
  mask <- lift (predict_mask model rgb original_size) ;;
  let mask := apply_threshold threshold mask in
  let out := copy rgb in
  lift (putalpha out mask).

(* ---------------------------------------------------------------- *)
(** *** Reading an archive (zipfile) *)

(** [zin.namelist()] *)
Definition namelist (zin : ZipFile) : list string :=
  map zi_filename (filelist zin).

(** [zin.getinfo(name)]: the name table keeps the last member of a name.
    (The service only asks for names out of [namelist], so the [KeyError]
    is never raised there.) *)
Definition getinfo (zin : ZipFile) (name : string) : result ZipInfo :=
  match find (fun zi => String.eqb (zi_filename zi) name) (rev (filelist zin)) with
  | Some zi => Ok zi
  | None => Raise (PyExc "KeyError" ("There is no item named '" ++ name ++ "' in the archive"))
  end.

(** [with zin.open(name) as fp: fp.read()] *)
Definition open_read (zin : ZipFile) (name : string) : result (list byte) :=
  rbind (getinfo zin name) zi_data.

(** The loop of [zin.testzip()] over [self.filelist]: each member is opened
    by name and read; the first [BadZipFile] gives the member's name back,
    another exception goes through. *)
Fixpoint testzip_loop (zin : ZipFile) (todo : list ZipInfo) : result (option string) :=
  match todo with
  | [] => Ok None
  | zinfo :: rest =>
      match open_read zin (zi_filename zinfo) with
      | Ok _ => testzip_loop zin rest
      | Raise e =>
          if String.eqb (exn_class e) "BadZipFile" then Ok (Some (zi_filename zinfo))
          else Raise e
      end
  end.

Definition testzip (zin : ZipFile) : result (option string) :=
  testzip_loop zin (filelist zin).

(** [zout.writestr(name, data)] *)
Definition writestr (zout : ZipOut) (name : string) (data : list byte) : M ZipOut :=
  ret (zout ++ [(name, data)]).

(* ---------------------------------------------------------------- *)
(** *** [verify_api_key] *)

(** [x_api_key != API_KEY] on two [Optional[str]]. *)
Definition opt_str_eqb (a b : option string) : bool :=
  match a, b with
  | Some x, Some y => String.eqb x y
  | None, None => true
  | _, _ => false
  end.

Definition verify_api_key (cfg : Config) (x_api_key : option string) : result unit :=
  if truthy (API_KEY cfg) && negb (opt_str_eqb x_api_key (API_KEY cfg)) then
    Raise (HTTPException 401 "Unauthorized - Invalid API key")
  else Ok tt.

(* ---------------------------------------------------------------- *)
(** *** [cutout_zip] *)

Definition valid_exts : list string :=
  [".png"; ".jpg"; ".jpeg"; ".webp"; ".bmp"]%string.

(** The filter of line 188. *)
Definition is_member (n : string) : bool :=
  negb (Py.endswith n "/")
  && Py.str_in (Py.lower (snd (Py.splitext n))) valid_exts.

(** [out_name]: lines 222 and 223. *)
Definition out_name (name : string) : string :=
  (fst (Py.splitext (Py.basename name)) ++ "_cutout.png")%string.

(** [error_name]: line 236. *)
Definition error_name (name : string) : string :=
  (Py.basename name ++ ".ERROR.txt")%string.

(** Lines 207 to 226 of the [try] body: read the member, decode it, cut it
    out and encode the result as PNG. *)
Definition member_png (zin : ZipFile) (threshold : option PyFloat.float)
  (name : string) : M (list byte) :=
  info <- lift (getinfo zin name) ;;
  data <- lift (open_read zin name) ;;
  im <- lift (Image_open B data) ;;
  rgba <- cutout_rgba im threshold ;;
  lift (save_png B rgba).

(** One turn of the [for name in members] loop: the [try] body ends by
    writing the cutout; the handler writes the error marker instead. *)
Definition process_member (zin : ZipFile) (threshold : option PyFloat.float)
  (zout : ZipOut) (name : string) : M ZipOut :=
  try_except
    (png <- member_png zin threshold name ;;
     writestr zout (out_name name) png)
    (fun e => writestr zout (error_name name) (list_byte_of_string (str_exn e))).

Fixpoint process_members (zin : ZipFile) (threshold : option PyFloat.float)
  (members : list string) (zout : ZipOut) : M ZipOut :=
  match members with
  | [] => ret zout
  | name :: rest =>
      zout' <- process_member zin threshold zout name ;;
      process_members zin threshold rest zout'
  end.

(** The double-quote character. *)
Definition dquote : string := String (ascii_of_nat 34) EmptyString.

(** An uploaded file part. *)
Record UploadFile : Type := { filename : string; content : list byte }.

(** Response bodies. *)
Inductive JsonValue : Type :=
| JStr (s : string)
| JDict (fields : list (string * string)).

Definition Json : Type := list (string * JsonValue).

(** The pages FastAPI's documentation routes serve: the Swagger UI (its
    title, the schema it loads, its OAuth2 redirect), the OAuth2 redirect
    page, and ReDoc (its title and the schema it loads). *)
Inductive DocPage : Type :=
| SwaggerUI (title openapi_url oauth2_redirect_url : string)
| SwaggerOAuth2Redirect
| ReDoc (title openapi_url : string).

(** What a handler returns.  Of the OpenAPI schema that FastAPI generates,
    the [info] object and the documented paths are kept. *)
Inductive Response : Type :=
| JSONResponse (body : Json)
| StreamingResponse (body : ZipOut) (media_type : string)
    (headers : list (string * string))
| OpenAPIResponse (info : Json) (paths : list string)
| HTMLResponse (page : DocPage).

Definition cutout_zip (file : UploadFile) (threshold : option PyFloat.float)
  : M Response :=
  if negb (Py.endswith (Py.lower (filename file)) ".zip") then
    raise (HTTPException 400 "Upload must be a .zip file")
  else
    let raw := content file in
    match ZipFile_open B raw with
    | Raise e =>
        if String.eqb (exn_class e) "BadZipFile" then
          raise (HTTPException 400 "Invalid ZIP file")
        else raise e
    | Ok zin =>
        let members := filter is_member (namelist zin) in
        match members with
        | [] => raise (HTTPException 400 "ZIP contains no supported images")
        | _ :: _ =>
            corrupt_member <- lift (testzip zin) ;;
            if truthy corrupt_member then
              raise (HTTPException 400
                       ("ZIP integrity check failed for: "
                          ++ match corrupt_member with Some n => n | None => "" end)%string)
            else
              zout <- process_members zin threshold members [] ;;
              ret (StreamingResponse zout "application/zip"
                     [("Content-Disposition",
                       "attachment; filename=" ++ dquote ++ "cutouts.zip" ++ dquote)]%string)
        end
    end.

(* ---------------------------------------------------------------- *)
(** *** The application, its route table and the dispatch *)

(** [app = FastAPI(title=..., description=..., version=...)], lines 123 to
    127.  Nothing else is passed, so the documentation URLs have FastAPI's
    defaults and trailing-slash redirection is on. *)
Definition app_title : string := "ToonOut API".
Definition app_description : string :=
  "Background removal API for anime/cartoon images using ToonOut".
Definition app_version : string := "1.0.0".
Definition openapi_url : string := "/openapi.json".
Definition docs_url : string := "/docs".
Definition swagger_ui_oauth2_redirect_url : string := "/docs/oauth2-redirect".
Definition redoc_url : string := "/redoc".
Definition redirect_slashes : bool := true.

Inductive Method : Type := GET | HEAD | POST | PUT | DELETE | PATCH | OPTIONS.

Definition Method_eqb (a b : Method) : bool :=
  match a, b with
  | GET, GET | HEAD, HEAD | POST, POST | PUT, PUT | DELETE, DELETE
  | PATCH, PATCH | OPTIONS, OPTIONS => true
  | _, _ => false
  end.

(** The dependencies a route can declare ([Depends(...)]). *)
Inductive Dependency : Type := Depends_verify_api_key.

Inductive Endpoint : Type :=
| endpoint_openapi | endpoint_swagger_ui_html | endpoint_swagger_ui_redirect
| endpoint_redoc_html
| endpoint_root | endpoint_ping | endpoint_cutout_zip.

(** One registered route: the methods it takes, its path, the dependencies
    that run before the handler, the handler, and whether the generated
    schema documents it. *)
Record Route : Type := {
  route_methods : list Method;
  route_path : string;
  dependencies : list Dependency;
  endpoint : Endpoint;
  include_in_schema : bool
}.

(** The routes of [app], in the order of registration.  The constructor
    [FastAPI(...)] of line 123 runs [setup()], which adds the schema and the
    documentation pages with [add_route]: plain Starlette routes, which take
    GET and HEAD and have no dependency.  The decorators of lines 136, 149
    and 155 then add the module's own three, each with the method of its
    decorator. *)
Definition app_routes : list Route :=
  [ {| route_methods := [GET; HEAD]; route_path := openapi_url;
       dependencies := []; endpoint := endpoint_openapi;
       include_in_schema := false |};
    {| route_methods := [GET; HEAD]; route_path := docs_url;
       dependencies := []; endpoint := endpoint_swagger_ui_html;
       include_in_schema := false |};
    {| route_methods := [GET; HEAD]; route_path := swagger_ui_oauth2_redirect_url;
       dependencies := []; endpoint := endpoint_swagger_ui_redirect;
       include_in_schema := false |};
    {| route_methods := [GET; HEAD]; route_path := redoc_url;
       dependencies := []; endpoint := endpoint_redoc_html;
       include_in_schema := false |};
    {| route_methods := [GET]; route_path := "/";
       dependencies := []; endpoint := endpoint_root;
       include_in_schema := true |};
    {| route_methods := [GET]; route_path := "/ping";
       dependencies := [Depends_verify_api_key]; endpoint := endpoint_ping;
       include_in_schema := true |};
    {| route_methods := [POST]; route_path := "/cutout_zip";
       dependencies := [Depends_verify_api_key]; endpoint := endpoint_cutout_zip;
       include_in_schema := true |} ]%string.

(** Whether a route runs the key check before its handler. *)
Definition gated (r : Route) : bool :=
  existsb (fun d => match d with Depends_verify_api_key => true end) (dependencies r).

Definition root : M Response :=
  ret (JSONResponse
         [("name", JStr "ToonOut API");
          ("version", JStr "1.0.0");
          ("endpoints",
            JDict [("/ping", "Health check");
                   ("/cutout_zip", "POST a ZIP of images to remove backgrounds")])]%string).

Definition ping : M Response :=
  ret (JSONResponse [("status", JStr "ok"); ("device", JStr DEVICE)]%string).

(** The four handlers that [setup()] defines. *)
Definition openapi : M Response :=
  ret (OpenAPIResponse
         [("title", JStr app_title); ("version", JStr app_version);
          ("description", JStr app_description)]%string
         (map route_path (filter include_in_schema app_routes))).

Definition swagger_ui_html : M Response :=
  ret (HTMLResponse
         (SwaggerUI (app_title ++ " - Swagger UI") openapi_url
            swagger_ui_oauth2_redirect_url)).

Definition swagger_ui_redirect : M Response :=
  ret (HTMLResponse SwaggerOAuth2Redirect).

Definition redoc_html : M Response :=
  ret (HTMLResponse (ReDoc (app_title ++ " - ReDoc") openapi_url)).

Record Request : Type := {
  req_method : Method;
  req_path : string;
  x_api_key : option string;          (* header [x-api-key] *)
  req_file : option UploadFile;       (* form part [file] *)
  req_threshold : option PyFloat.float  (* query parameter [threshold] *)
}.

(** What goes back to the client: the handler's response with status 200,
    an error status with its detail, or the 307 of a trailing-slash
    redirection with the path it points to. *)
Inductive HTTPResult : Type :=
| Success (r : Response)
| Failure (status : Z) (detail : string)
| RedirectResponse (url : string).

Definition status_of (r : HTTPResult) : Z :=
  match r with
  | Success _ => 200
  | Failure s _ => s
  | RedirectResponse _ => 307
  end.

Definition run_dependency (cfg : Config) (req : Request) (d : Dependency) : M unit :=
  match d with
  | Depends_verify_api_key => lift (verify_api_key cfg (x_api_key req))
  end.

Fixpoint run_dependencies (cfg : Config) (req : Request) (ds : list Dependency) : M unit :=
  match ds with
  | [] => ret tt
  | d :: rest => _ <- run_dependency cfg req d ;; run_dependencies cfg req rest
  end.

Definition call_endpoint (req : Request) (e : Endpoint) : M Response :=
  match e with
  | endpoint_openapi => openapi
  | endpoint_swagger_ui_html => swagger_ui_html
  | endpoint_swagger_ui_redirect => swagger_ui_redirect
  | endpoint_redoc_html => redoc_html
  | endpoint_root => root
  | endpoint_ping => ping
  | endpoint_cutout_zip =>
      match req_file req with
      | Some f => cutout_zip f (req_threshold req)
      | None => raise (HTTPException 422 "Field required")
      end
  end.

(** [Route.matches]: the path decides whether the route matches at all, the
    method whether the match is full or partial. *)
Definition path_matches (path : string) (r : Route) : bool :=
  String.eqb (route_path r) path.

Definition full_match (req : Request) (r : Route) : bool :=
  path_matches (req_path req) r
  && existsb (Method_eqb (req_method req)) (route_methods r).

(** The first route that matches the request in full. *)
Definition find_route (req : Request) : option Route :=
  find (full_match req) app_routes.

(** The path that the router tries when nothing matched: without its
    trailing slashes, or with one added. *)
Definition redirect_path (path : string) : string :=
  if Py.endswith path "/" then Py.rstrip path "/" else (path ++ "/")%string.

(** The application on one request ([Router.app]).  A full match runs the
    route's dependencies, then its handler; an [HTTPException] becomes its
    status, any other exception a 500.  With partial matches only (the path
    is known, the method is not) the answer is 405.  Otherwise, for a path
    other than "/", a route that matches the path of [redirect_path] gives
    the redirection; what is left is a 404. *)
Definition handle (cfg : Config) (req : Request) (w : World) : World * HTTPResult :=
  match find_route req with
  | Some r =>
      match (_ <- run_dependencies cfg req (dependencies r) ;;
             call_endpoint req (endpoint r)) w with
      | (w', Ok resp) => (w', Success resp)
      | (w', Raise (HTTPException s d)) => (w', Failure s d)
      | (w', Raise (PyExc _ _)) => (w', Failure 500 "Internal Server Error")
      end
  | None =>
      if existsb (path_matches (req_path req)) app_routes
      then (w, Failure 405 "Method Not Allowed")
      else if redirect_slashes
              && negb (String.eqb (req_path req) "/")
              && existsb (path_matches (redirect_path (req_path req))) app_routes
      then (w, RedirectResponse (redirect_path (req_path req)))
      else (w, Failure 404 "Not Found")
  end.

End Service.

(* ------------------------------------------------------------------ *)
(** ** A small concrete backend

    The statements of this file are proved for every backend.  To run the
    service on concrete requests, here is one made of the simplest codecs:
    - an image file is [width; height; orientation] followed by the L
      samples, row by row (orientation 0 for no EXIF tag, 255 for an EXIF
      block that cannot be parsed);
    - an archive is a sequence of members
      [name length; name...; flag; data length; data...], where flag 0 is a
      sound member, 1 a member whose CRC fails and anything else an
      encrypted one;
    - the network answers with the first channel of its input;
    - resampling takes the nearest pixel. *)

Module Tiny.

Definition nat_of_byte (b : byte) : nat := N.to_nat (Byte.to_N b).

Definition byte_of_nat (n : nat) : byte :=
  match Byte.of_N (N.of_nat n) with
  | Some b => b
  | None => xff
  end.

(** What [getexif] raises on a block that is not a TIFF structure. *)
Definition malformed_exif : exn := PyExc "SyntaxError" "not a TIFF file".

Definition decode_image (data : list byte) : result Image :=
  match data with
  | w :: h :: o :: samples =>
      let w := nat_of_byte w in
      let h := nat_of_byte h in
      if Nat.ltb (List.length samples) (w * h) then
        Raise (PyExc "OSError" "image file is truncated")
      else
        Ok {| mode := mode_L; width := w; height := h;
              exif_orientation :=
                if Nat.eqb (nat_of_byte o) 0 || Nat.eqb (nat_of_byte o) 255 then None
                else Some (Z.of_nat (nat_of_byte o));
              exif_error :=
                if Nat.eqb (nat_of_byte o) 255 then Some malformed_exif else None;
              px := fun x y => [nth (y * w + x) samples x00] |}
  | _ => Raise (PyExc "UnidentifiedImageError" "cannot identify image file")
  end.

Definition encode_png (im : Image) : result (list byte) :=
  Ok (byte_of_nat (width im) :: byte_of_nat (height im) ::
      flat_map (fun y => flat_map (fun x => px im x y) (seq 0 (width im)))
               (seq 0 (height im))).

Definition convert_samples (m : Mode) (im : Image) (x y : nat) : list byte :=
  let p := px im x y in
  match mode im with
  | mode_1 | mode_L | mode_P | mode_LA => [band 0 p; band 0 p; band 0 p; xff]
  | _ => [band 0 p; band 1 p; band 2 p; xff]
  end.

Definition nearest (_ : Resampling) (im : Image) (w h x y : nat) : list byte :=
  px im (x * width im / w)%nat (y * height im / h)%nat.

Fixpoint parse_members (fuel : nat) (raw : list byte) : result (list ZipInfo) :=
  match fuel with
  | O => Raise (PyExc "BadZipFile" "File is not a zip file")
  | S fuel' =>
      match raw with
      | [] => Ok []
      | len :: rest =>
          let n := nat_of_byte len in
          let name := string_of_list_byte (firstn n rest) in
          match skipn n rest with
          | flag :: dlen :: rest' =>
              let d := nat_of_byte dlen in
              if Nat.ltb (List.length rest') d then
                Raise (PyExc "BadZipFile" "File is not a zip file")
              else
                let data := firstn d rest' in
                rbind (parse_members fuel' (skipn d rest')) (fun tail =>
                Ok ({| zi_filename := name;
                       file_size := N.of_nat d;
                       zi_data :=
                         match nat_of_byte flag with
                         | 0 => Ok data
                         | 1 => Raise (PyExc "BadZipFile" "Bad CRC-32")
                         | _ => Raise (PyExc "RuntimeError" "File is encrypted, password required for extraction")
                         end%nat |} :: tail))
          | _ => Raise (PyExc "BadZipFile" "File is not a zip file")
          end
      end
  end.

Definition read_archive (raw : list byte) : result ZipFile :=
  rbind (parse_members (S (List.length raw)) raw) (fun l => Ok {| filelist := l |}).

Definition first_channel (_ : unit) (x : Tensor byte) : result (Tensor byte) :=
  Ok {| shape := [1; 1; nth 2 (shape x) 0; nth 3 (shape x) 0]%nat;
        elem := fun idx =>
                  match idx with
                  | [_; _; r; c] => elem x [0; 0; r; c]%nat
                  | _ => x00
                  end |}.

Definition backend : Backend :=
  {| cuda_is_available := false;
     F := byte;
     F_of_byte := fun b => b;
     F_normalize := fun _ _ v => v;
     F_to_dtype := fun _ v => v;
     F_to_byte := fun v => v;
     Module_ := unit;
     StateDict := unit;
     BiRefNet := fun _ => Ok tt;
     torch_load := fun _ => Ok tt;
     check_state_dict := fun s => s;
     load_state_dict := fun m _ => Ok m;
     eval_to := fun m _ => Ok m;
     half := fun m => m;
     forward := first_channel;
     Image_open := decode_image;
     convert_px := convert_samples;
     resample_px := nearest;
     save_png := encode_png;
     ZipFile_open := read_archive |}.

(** The same machine with the weights file missing. *)
Definition backend_no_weights : Backend :=
  {| cuda_is_available := false;
     F := byte;
     F_of_byte := fun b => b;
     F_normalize := fun _ _ v => v;
     F_to_dtype := fun _ v => v;
     F_to_byte := fun v => v;
     Module_ := unit;
     StateDict := unit;
     BiRefNet := fun _ => Ok tt;
     torch_load := fun _ => Raise (PyExc "FileNotFoundError" "No such file or directory");
     check_state_dict := fun s => s;
     load_state_dict := fun m _ => Ok m;
     eval_to := fun m _ => Ok m;
     half := fun m => m;
     forward := first_channel;
     Image_open := decode_image;
     convert_px := convert_samples;
     resample_px := nearest;
     save_png := encode_png;
     ZipFile_open := read_archive |}.

(** One archive member in the container format above. *)
Definition member (name : string) (flag : byte) (data : list byte) : list byte :=
  byte_of_nat (String.length name) :: list_byte_of_string name
    ++ flag :: byte_of_nat (List.length data) :: data.

(** A 2 x 1 image with samples 10 and 200, no EXIF tag. *)
Definition img_2x1 : list byte := [x02; x01; x00; x0a; xc8].

(** The same raster with EXIF orientation 6 (to be turned by 270 degrees). *)
Definition img_2x1_rotated : list byte := [x02; x01; x06; x0a; xc8].

(** The same raster with an EXIF block that cannot be parsed. *)
Definition img_2x1_bad_exif : list byte := [x02; x01; xff; x0a; xc8].

(** An archive of two images that share a basename. *)
Definition archive_two_dirs : list byte :=
  member "a/img.png" x00 img_2x1 ++ member "b/img.png" x00 img_2x1.

(** An archive of a broken image file followed by a sound one. *)
Definition archive_one_broken : list byte :=
  member "bad.jpg" x00 [x01] ++ member "ok.png" x00 img_2x1.

(** An archive whose member of empty name fails its CRC, before a sound
    image. *)
Definition archive_corrupt_unnamed : list byte :=
  member "" x01 [] ++ member "ok.png" x00 img_2x1.

(** An archive whose member [notes.txt] fails its CRC. *)
Definition archive_corrupt_named : list byte :=
  member "notes.txt" x01 [] ++ member "ok.png" x00 img_2x1.

(** [img_2x1] and [img_2x1_rotated] as loaded images. *)
Definition image_2x1 : Image :=
  {| mode := mode_L; width := 2; height := 1; exif_orientation := None;
     exif_error := None;
     px := fun x y => [nth (y * 2 + x) [x0a; xc8] x00] |}.

Definition image_2x1_rotated : Image :=
  {| mode := mode_L; width := 2; height := 1; exif_orientation := Some 6;
     exif_error := None;
     px := fun x y => [nth (y * 2 + x) [x0a; xc8] x00] |}.

(** The same raster with an EXIF block that cannot be parsed. *)
Definition image_2x1_bad_exif : Image :=
  {| mode := mode_L; width := 2; height := 1; exif_orientation := None;
     exif_error := Some malformed_exif;
     px := fun x y => [nth (y * 2 + x) [x0a; xc8] x00] |}.

(** The image a run returned, [fallback] if it raised. *)
Definition returned {W : Type} (fallback : Image) (r : W * result Image) : Image :=
  match snd r with
  | Ok im => im
  | Raise _ => fallback
  end.

Definition upload (raw : list byte) : UploadFile :=
  {| filename := "batch.zip"; content := raw |}.

(** The state once the model is loaded, and the loaded object. *)
Definition loaded_model : ModelObj backend := Build_ModelObj backend 0%nat tt.

Definition loaded_world : World backend :=
  Build_World backend (Some loaded_model)
    [Ev_BiRefNet; Ev_torch_load WEIGHTS_PATH].

(** Requests: a health check, a batch, the API description. *)
Definition get_ping (key : option string) : Request :=
  {| req_method := GET; req_path := "/ping"%string; x_api_key := key;
     req_file := None; req_threshold := None |}.

Definition post_cutout_zip (key : option string) (raw : list byte) : Request :=
  {| req_method := POST; req_path := "/cutout_zip"%string; x_api_key := key;
     req_file := Some (upload raw); req_threshold := None |}.

Definition get_root (key : option string) : Request :=
  {| req_method := GET; req_path := "/"%string; x_api_key := key;
     req_file := None; req_threshold := None |}.

(** A GET request for a path, with no body. *)
Definition get (path : string) (key : option string) : Request :=
  {| req_method := GET; req_path := path; x_api_key := key;
     req_file := None; req_threshold := None |}.

Definition open_config : Config := {| API_KEY := None |}.
Definition keyed_config : Config := {| API_KEY := Some "s3cret"%string |}.

(** The entries of the archive a run answered with, none if it raised. *)
Definition entries_of {W : Type} (r : W * result Response) : ZipOut :=
  match snd r with
  | Ok (StreamingResponse body _ _) => body
  | _ => []
  end.


(** The answer to a batch on the fresh process, without threshold. *)
Definition batch (raw : list byte) : World backend * result Response :=
  cutout_zip backend (upload raw) None (initial_world backend).

(** 0.5 and 2.0 as binary64. *)
Definition float_half : PyFloat.float := S754_finite false 4503599627370496 (-53).
Definition float_two : PyFloat.float := S754_finite false 4503599627370496 (-51).
Definition float_minus_one : PyFloat.float := S754_finite true 4503599627370496 (-52).

End Tiny.

(* ------------------------------------------------------------------ *)
(** ** Derived notions used by the statements *)

Arguments initial_world {B}.

(** The outcome of the [try] body for each member of the loop, in order:
    the member's name with its PNG bytes or with the exception raised.  The
    process state goes from one member to the next as in the loop. *)
Fixpoint member_results (B : Backend) (zin : ZipFile)
  (threshold : option PyFloat.float) (members : list string) (w : World B)
  : list (string * result (list byte)) :=
  match members with
  | [] => []
  | name :: rest =>
      let (w', r) := member_png B zin threshold name w in
      (name, r) :: member_results B zin threshold rest w'
  end.

(** The archive entry the loop writes for a member, given the outcome of
    its [try] body. *)
Definition entry_for (name : string) (r : result (list byte)) : string * list byte :=
  match r with
  | Ok png => (out_name name, png)
  | Raise e => (error_name name, list_byte_of_string (str_exn e))
  end.

(** The process state after a sequence of requests. *)
Fixpoint run_requests (B : Backend) (cfg : Config) (reqs : list Request)
  (w : World B) : World B :=
  match reqs with
  | [] => w
  | req :: rest => run_requests B cfg rest (fst (handle B cfg req w))
  end.

(** Whether EXIF orientation [o] exchanges width and height. *)
Definition swaps_axes (o : option Z) : bool :=
  match o with
  | Some v => (5 <=? v) && (v <=? 8)
  | None => false
  end.

(* ------------------------------------------------------------------ *)
(** * Properties *)

(** ** Floats against sample values *)

Section FloatFacts.

Lemma shr_1_nonneg (r : shr_record) : 0 <= shr_m r -> 0 <= shr_m (shr_1 r).
Proof.
  destruct r as [m rb sb]; simpl.
  destruct m as [|p|p]; simpl; try lia.
  destruct p; simpl; lia.
Qed.

Lemma iter_pos_shr_1_nonneg (p : positive) :
  forall r, 0 <= shr_m r -> 0 <= shr_m (iter_pos shr_1 p r).
Proof.
  induction p as [p IH|p IH|]; intros r Hr; simpl.
  - apply IH, IH, shr_1_nonneg, Hr.
  - apply IH, IH, Hr.
  - apply shr_1_nonneg, Hr.
Qed.

Lemma shr_fexp_nonneg (m e : Z) (l : location) :
  0 <= m -> 0 <= shr_m (fst (shr_fexp PyFloat.prec PyFloat.emax m e l)).
Proof.
  intros Hm. unfold shr_fexp, shr.
  assert (H0 : 0 <= shr_m (shr_record_of_loc m l)).
  { destruct l as [|[]]; simpl; exact Hm. }
  destruct (fexp PyFloat.prec PyFloat.emax (Zdigits2 m + e) - e); simpl; auto.
  apply iter_pos_shr_1_nonneg, H0.
Qed.

Lemma round_nearest_even_nonneg (m : Z) (l : location) :
  0 <= m -> 0 <= round_nearest_even m l.
Proof.
  intros Hm. destruct l as [|[]]; simpl; try lia.
  destruct (Z.even m); lia.
Qed.

(** Rounding a non-negative mantissa keeps the sign it is given: the result
    is a zero, a finite number or an infinity of that sign, never a NaN. *)
Lemma binary_round_aux_sign (sx : bool) (mx ex : Z) (lx : location) :
  0 <= mx ->
  let r := binary_round_aux PyFloat.prec PyFloat.emax sx mx ex lx in
  r = S754_zero sx \/ (exists m e, r = S754_finite sx m e) \/ r = S754_infinity sx.
Proof.
  intros Hm r. subst r. unfold binary_round_aux.
  pose proof (shr_fexp_nonneg mx ex lx Hm) as H1.
  destruct (shr_fexp PyFloat.prec PyFloat.emax mx ex lx) as [mrs' e'].
  simpl in H1.
  pose proof (shr_fexp_nonneg _ e' loc_Exact
                (round_nearest_even_nonneg _ (loc_of_shr_record mrs') H1)) as H2.
  destruct (shr_fexp PyFloat.prec PyFloat.emax
              (round_nearest_even (shr_m mrs') (loc_of_shr_record mrs')) e' loc_Exact)
    as [mrs'' e''].
  simpl in H2.
  destruct (shr_m mrs'') as [|m|m].
  - left; reflexivity.
  - destruct (e'' <=? PyFloat.emax - PyFloat.prec).
    + right; left; eauto.
    + right; right; reflexivity.
  - lia.
Qed.

Lemma int_of_byte_range (b : byte) : 0 <= int_of_byte b <= 255.
Proof.
  unfold int_of_byte. pose proof (Byte.to_N_bounded b). lia.
Qed.

Lemma compare_int_Gt_le (x : PyFloat.float) (n p : Z) :
  PyFloat.compare_int x n = Some Gt -> p <= n ->
  PyFloat.compare_int x p = Some Gt.
Proof.
  intros H Hp.
  destruct x as [s|s| |s m e]; cbv beta iota zeta delta [PyFloat.compare_int] in *.
  - assert (H' : (0 ?= n) = Gt) by congruence.
    f_equal. apply Z.compare_gt_iff in H'. apply Z.compare_gt_iff. lia.
  - exact H.
  - discriminate.
  - f_equal. destruct (0 <=? e).
    + assert (H' : ((if s then Z.neg m else Z.pos m) * 2 ^ e ?= n) = Gt) by congruence.
      apply Z.compare_gt_iff in H'. apply Z.compare_gt_iff. lia.
    + assert (H' : ((if s then Z.neg m else Z.pos m) ?= n * 2 ^ (- e)) = Gt) by congruence.
      apply Z.compare_gt_iff in H'. apply Z.compare_gt_iff.
      assert (Hk : 0 <= 2 ^ (- e)) by (apply Z.pow_nonneg; lia).
      nia.
Qed.

(** [x > n] for a float makes [p >= x] false for every int [p <= n]. *)
Lemma int_ge_false_above (x : PyFloat.float) (n p : Z) :
  PyFloat.gt_int x n = true -> p <= n -> PyFloat.int_ge p x = false.
Proof.
  unfold PyFloat.gt_int, PyFloat.int_ge. intros H Hp.
  destruct (PyFloat.compare_int x n) as [[| |]|] eqn:E; try discriminate.
  rewrite (compare_int_Gt_le x n p E Hp). reflexivity.
Qed.

(** A float of negative sign, or a zero, is below every int [0 <= p]. *)
Lemma int_ge_signed (p : Z) (x : PyFloat.float) :
  0 <= p ->
  (exists s, x = S754_zero s) \/ (exists m e, x = S754_finite true m e)
  \/ x = S754_infinity true ->
  PyFloat.int_ge p x = true.
Proof.
  intros Hp [[s ->]|[[m [e ->]]| ->]];
    cbv beta iota zeta delta [PyFloat.int_ge PyFloat.compare_int].
  - destruct (0 ?= p) eqn:E; try reflexivity.
    apply Z.compare_gt_iff in E. lia.
  - destruct (0 <=? e).
    + assert (Hk : 0 <= 2 ^ e) by (apply Z.pow_nonneg; lia).
      destruct (Z.neg m * 2 ^ e ?= p) eqn:E; try reflexivity.
      apply Z.compare_gt_iff in E. nia.
    + assert (Hk : 0 <= 2 ^ (- e)) by (apply Z.pow_nonneg; lia).
      destruct (Z.neg m ?= p * 2 ^ (- e)) eqn:E; try reflexivity.
      apply Z.compare_gt_iff in E. nia.
  - reflexivity.
Qed.

(** [t <= 0] for a float makes [p >= t * 255] true for every int [0 <= p]. *)
Lemma int_ge_true_nonpositive (t : PyFloat.float) (p : Z) :
  PyFloat.le_int t 0 = true -> 0 <= p ->
  PyFloat.int_ge p (PyFloat.mul_int t 255) = true.
Proof.
  intros Ht Hp. apply int_ge_signed; [exact Hp|].
  unfold PyFloat.mul_int, PyFloat.mul.
  change (PyFloat.of_int 255) with (S754_finite false 8972014882652160 (-45)).
  destruct t as [s|s| |s m e]; simpl.
  - left; eauto.
  - right; right. destruct s; [reflexivity|discriminate].
  - discriminate.
  - assert (Hs : s = true).
    { destruct s; [reflexivity|exfalso].
      cbv beta iota zeta delta [PyFloat.le_int PyFloat.compare_int] in Ht.
      destruct (0 <=? e) eqn:He.
      - apply Z.leb_le in He.
        assert (0 < 2 ^ e) by (apply Z.pow_pos_nonneg; lia).
        assert (Hm : 0 < Z.pos m * 2 ^ e) by (apply Z.mul_pos_pos; lia).
        destruct (Z.pos m * 2 ^ e ?= 0) eqn:E; try discriminate.
        + apply Z.compare_eq_iff in E. lia.
        + rewrite Z.compare_lt_iff in E. lia.
      - rewrite Z.mul_0_l in Ht. simpl in Ht. discriminate. }
    subst s.
    destruct (binary_round_aux_sign (xorb true false)
                (Z.pos (m * 8972014882652160)) (e + -45) loc_Exact)
      as [H|[H|H]]; [lia| | |]; simpl xorb in H.
    + left; eexists; exact H.
    + right; left; exact H.
    + right; right; exact H.
Qed.

End FloatFacts.

(** ** Image operations *)

Section ImageFacts.

Variable B : Backend.

Lemma Mode_eqb_eq (a b : Mode) : Mode_eqb a b = true -> a = b.
Proof. destruct a, b; simpl; congruence. Qed.

Lemma size_eqb_eq (a b : nat * nat) : size_eqb a b = true -> a = b.
Proof.
  destruct a as [a1 a2], b as [b1 b2]; unfold size_eqb; simpl.
  intros H. apply andb_prop in H as [H1 H2].
  apply Nat.eqb_eq in H1, H2. congruence.
Qed.

Lemma mode_convert (im : Image) (m : Mode) : mode (convert B im m) = m.
Proof.
  unfold convert. destruct (Mode_eqb (mode im) m) eqn:E; [|reflexivity].
  apply Mode_eqb_eq, E.
Qed.

Lemma size_convert (im : Image) (m : Mode) : size (convert B im m) = size im.
Proof. unfold convert. destruct (Mode_eqb (mode im) m); reflexivity. Qed.

Lemma mode_resize (im : Image) (sz : nat * nat) (f : Resampling) :
  mode (resize B im sz f) = mode im.
Proof. unfold resize. destruct (size_eqb (size im) sz); reflexivity. Qed.

Lemma size_resize (im : Image) (sz : nat * nat) (f : Resampling) :
  size (resize B im sz f) = sz.
Proof.
  unfold resize. destruct (size_eqb (size im) sz) eqn:E.
  - apply size_eqb_eq, E.
  - destruct sz; reflexivity.
Qed.

Lemma size_transpose_swap (im : Image) (method : Transpose) :
  size (transpose im method) =
  match method with
  | FLIP_LEFT_RIGHT | FLIP_TOP_BOTTOM | ROTATE_180 => size im
  | _ => (height im, width im)
  end.
Proof. destruct method; reflexivity. Qed.

(** The size after [exif_transpose]: orientations 5 to 8 exchange width and
    height, every other value (and a missing tag) keeps them. *)
Lemma size_exif_transpose (im tr : Image) :
  exif_transpose im = Ok tr ->
  size tr =
  if swaps_axes (exif_orientation im) then (height im, width im) else size im.
Proof.
  unfold exif_transpose, getexif_orientation, rbind, exif_method, swaps_axes.
  destruct (exif_error im) as [e|]; [discriminate|].
  destruct (exif_orientation im) as [o|];
    [|intros H; injection H as <-; reflexivity].
  destruct (o =? 2) eqn:E2;
    [apply Z.eqb_eq in E2; subst; intros H; injection H as <-; reflexivity|].
  destruct (o =? 3) eqn:E3;
    [apply Z.eqb_eq in E3; subst; intros H; injection H as <-; reflexivity|].
  destruct (o =? 4) eqn:E4;
    [apply Z.eqb_eq in E4; subst; intros H; injection H as <-; reflexivity|].
  destruct (o =? 5) eqn:E5;
    [apply Z.eqb_eq in E5; subst; intros H; injection H as <-; reflexivity|].
  destruct (o =? 6) eqn:E6;
    [apply Z.eqb_eq in E6; subst; intros H; injection H as <-; reflexivity|].
  destruct (o =? 7) eqn:E7;
    [apply Z.eqb_eq in E7; subst; intros H; injection H as <-; reflexivity|].
  destruct (o =? 8) eqn:E8;
    [apply Z.eqb_eq in E8; subst; intros H; injection H as <-; reflexivity|].
  apply Z.eqb_neq in E5, E6, E7, E8.
  intros H. injection H as <-.
  replace ((5 <=? o) && (o <=? 8)) with false; [reflexivity|].
  symmetry. apply andb_false_iff.
  destruct (5 <=? o) eqn:L5; [right|left; reflexivity].
  apply Z.leb_le in L5. apply Z.leb_gt. lia.
Qed.

(** What a successful [putalpha] returns. *)
Lemma putalpha_ok (im alpha out : Image) :
  putalpha B im alpha = Ok out ->
  mode out = mode_RGBA /\ size out = size im
  /\ forall x y, alpha_at out x y = band 0 (px alpha x y).
Proof.
  unfold putalpha.
  destruct (negb (Mode_eqb (mode alpha) mode_L || Mode_eqb (mode alpha) mode_1));
    [discriminate|].
  destruct (negb (size_eqb (size alpha) (size im))); [discriminate|].
  intros H. injection H as <-. repeat split.
Qed.

(** The stages of a successful [cutout_rgba]. *)
Lemma cutout_rgba_ok (img : Image) (threshold : option PyFloat.float)
  (w w' : World B) (out : Image) :
  cutout_rgba B img threshold w = (w', Ok out) ->
  exists model tr soft,
    load_model B w = (w', Ok model)
    /\ exif_transpose img = Ok tr
    /\ predict_mask B model (convert B tr mode_RGB)
         (size (convert B tr mode_RGB)) = Ok soft
    /\ putalpha B (copy (convert B tr mode_RGB))
         (apply_threshold threshold soft) = Ok out.
Proof.
  unfold cutout_rgba, bind, lift. intros H.
  destruct (load_model B w) as [w1 [model|e]]; [|discriminate].
  destruct (exif_transpose img) as [tr|e] eqn:Et; [|discriminate].
  destruct (predict_mask B model _ _) as [soft|e] eqn:E; [|discriminate].
  assert (w1 = w') by congruence. subst w1.
  exists model, tr, soft. repeat split; [exact E|congruence].
Qed.

Lemma band0_threshold (t : PyFloat.float) (mask : Image) (x y : nat) :
  band 0 (px (apply_threshold (Some t) mask) x y) =
  if PyFloat.int_ge (int_of_byte (band 0 (px mask x y))) (PyFloat.mul_int t 255)
  then xff else x00.
Proof.
  simpl. unfold threshold_lut.
  destruct (PyFloat.int_ge _ _); reflexivity.
Qed.

End ImageFacts.

(** ** The mask post-processor *)

(** C9: when a threshold [t] is given and [cutout_rgba] returns, each alpha
    sample of the returned image is 0 or 255; it is 255 exactly when the
    soft mask sample at that pixel is at least [t * 255]; when
    [t * 255 > 255] every alpha sample is 0, and when [t <= 0] every alpha
    sample is 255.  The soft mask is the resized prediction of
    [predict_mask] for the EXIF-transposed input. *)
Theorem cutout_rgba_threshold_alpha (B : Backend) (img : Image)
  (t : PyFloat.float) (w w' : World B) (out : Image) :
  cutout_rgba B img (Some t) w = (w', Ok out) ->
  exists model tr soft,
    load_model B w = (w', Ok model)
    /\ exif_transpose img = Ok tr
    /\ predict_mask B model (convert B tr mode_RGB)
         (size (convert B tr mode_RGB)) = Ok soft
    /\ forall x y,
         let p := int_of_byte (band 0 (px soft x y)) in
         let a := alpha_at out x y in
         (a = x00 \/ a = xff)
         /\ (a = xff <-> PyFloat.int_ge p (PyFloat.mul_int t 255) = true)
         /\ (PyFloat.gt_int (PyFloat.mul_int t 255) 255 = true -> a = x00)
         /\ (PyFloat.le_int t 0 = true -> a = xff).
Proof.
  intros H.
  destruct (cutout_rgba_ok B img (Some t) w w' out H)
    as (model & tr & soft & Hl & Ht & Hp & Ha).
  exists model, tr, soft. split; [exact Hl|]. split; [exact Ht|]. split; [exact Hp|].
  intros x y p a.
  destruct (putalpha_ok B _ _ _ Ha) as (_ & _ & Halpha).
  assert (Ea : a = if PyFloat.int_ge p (PyFloat.mul_int t 255) then xff else x00).
  { subst a p. rewrite Halpha. apply band0_threshold. }
  pose proof (int_of_byte_range (band 0 (px soft x y))) as Hr. fold p in Hr.
  repeat split.
  - rewrite Ea. destruct (PyFloat.int_ge _ _); auto.
  - rewrite Ea. destruct (PyFloat.int_ge _ _); [reflexivity|discriminate].
  - intros Hge. rewrite Ea, Hge. reflexivity.
  - intros Hgt. rewrite Ea.
    rewrite (int_ge_false_above _ 255 p Hgt); [reflexivity|lia].
  - intros Hle. rewrite Ea.
    rewrite (int_ge_true_nonpositive t p Hle); [reflexivity|lia].
Qed.

Lemma cutout_rgba_threshold_alpha_witness :
  let run := cutout_rgba Tiny.backend Tiny.image_2x1 (Some Tiny.float_half)
               initial_world in
  run = (fst run, Ok (Tiny.returned Tiny.image_2x1 run))
  /\ (alpha_at (Tiny.returned Tiny.image_2x1 run) 0 0 = x00
      \/ alpha_at (Tiny.returned Tiny.image_2x1 run) 0 0 = xff).
Proof.
  intros run.
  assert (E : run = (fst run, Ok (Tiny.returned Tiny.image_2x1 run)))
    by (vm_compute; reflexivity).
  split; [exact E|].
  destruct (cutout_rgba_threshold_alpha Tiny.backend Tiny.image_2x1
              Tiny.float_half initial_world (fst run)
              (Tiny.returned Tiny.image_2x1 run) E)
    as (model & tr & soft & _ & _ & _ & Hxy).
  exact (proj1 (Hxy 0%nat 0%nat)).
Defined.

(** C6 fails as stated: an image whose EXIF orientation turns it by a
    quarter comes back with width and height exchanged.  Here a 2 x 1 image
    of orientation 6 comes back 1 x 2. *)
Lemma cutout_rgba_size_not_input_size :
  ~ (forall (B : Backend) (img : Image) (t : option PyFloat.float)
            (w w' : World B) (out : Image),
        cutout_rgba B img t w = (w', Ok out) -> size out = size img).
Proof.
  intros H.
  pose (run := cutout_rgba Tiny.backend Tiny.image_2x1_rotated None initial_world).
  assert (E : run = (fst run, Ok (Tiny.returned Tiny.image_2x1 run)))
    by (vm_compute; reflexivity).
  apply H in E. vm_compute in E. discriminate E.
Qed.

(** C6, amended: the image returned by [cutout_rgba] has the size of the
    input after [exif_transpose]: the input's width and height, exchanged
    when the EXIF orientation is 5, 6, 7 or 8. *)
Theorem cutout_rgba_size (B : Backend) (img : Image) (t : option PyFloat.float)
  (w w' : World B) (out : Image) :
  cutout_rgba B img t w = (w', Ok out) ->
  (exists tr, exif_transpose img = Ok tr /\ size out = size tr)
  /\ size out = if swaps_axes (exif_orientation img)
                then (height img, width img) else size img.
Proof.
  intros H.
  destruct (cutout_rgba_ok B img t w w' out H)
    as (model & tr & soft & _ & Ht & _ & Ha).
  destruct (putalpha_ok B _ _ _ Ha) as (_ & Hs & _).
  unfold copy in Hs. rewrite size_convert in Hs.
  split; [exists tr; split; [exact Ht|exact Hs]|].
  rewrite Hs. apply size_exif_transpose, Ht.
Qed.

Lemma cutout_rgba_size_witness :
  let run := cutout_rgba Tiny.backend Tiny.image_2x1_rotated None initial_world in
  run = (fst run, Ok (Tiny.returned Tiny.image_2x1 run))
  /\ size (Tiny.returned Tiny.image_2x1 run) = (1, 2)%nat.
Proof.
  intros run.
  assert (E : run = (fst run, Ok (Tiny.returned Tiny.image_2x1 run)))
    by (vm_compute; reflexivity).
  split; [exact E|].
  destruct (cutout_rgba_size Tiny.backend Tiny.image_2x1_rotated None
              initial_world (fst run) (Tiny.returned Tiny.image_2x1 run) E)
    as [_ Hs].
  rewrite Hs. reflexivity.
Defined.

(** ** The preprocessor *)

(** C7: whatever an image's size and mode, preprocessing its RGB conversion
    gives a tensor of shape 3 x 1024 x 1024 (1 x 3 x 1024 x 1024 once
    batched for the network).  This holds of every image, so of the
    EXIF-transposed input that [cutout_rgba] converts and preprocesses. *)
Theorem preprocess_shape (B : Backend) (img : Image) :
  exists t,
    preprocess B (convert B img mode_RGB) = Ok t
    /\ shape t = [3; 1024; 1024]%nat
    /\ shape (to_device B (unsqueeze0 B t)) = [1; 3; 1024; 1024]%nat.
Proof.
  set (rgb := convert B img mode_RGB).
  unfold preprocess.
  set (r := Resize B IMAGE_SIZE rgb).
  assert (Hm : mode r = mode_RGB).
  { unfold r, Resize. rewrite mode_resize. apply mode_convert. }
  assert (Hs : size r = (1024, 1024)%nat).
  { unfold r, Resize. rewrite size_resize. reflexivity. }
  unfold size in Hs. injection Hs as Hw Hh.
  unfold Normalize, ToTensor. cbn [shape].
  rewrite Hm, Hw, Hh. cbn [bands NORMALIZE_MEAN List.length Nat.eqb].
  eexists. split; [reflexivity|]. split; reflexivity.
Qed.

(** ** The key check *)

Lemma opt_str_eqb_eq (a b : option string) : opt_str_eqb a b = true <-> a = b.
Proof.
  destruct a as [x|], b as [y|]; simpl; split; intros H;
    try discriminate; try reflexivity.
  - apply String.eqb_eq in H. congruence.
  - apply String.eqb_eq. congruence.
Qed.

(** C4: a key is configured when [TOONOUT_API_KEY] is set to a non-empty
    string ([truthy]).  With a configured key, a header that differs from it
    (or no header) raises the 401 and the header equal to it passes; with no
    key configured (unset, or empty) every request passes. *)
Theorem verify_api_key_static (cfg : Config) (header : option string) :
  (truthy (API_KEY cfg) = true -> header <> API_KEY cfg ->
   verify_api_key cfg header
   = Raise (HTTPException 401 "Unauthorized - Invalid API key"))
  /\ (header = API_KEY cfg -> verify_api_key cfg header = Ok tt)
  /\ (truthy (API_KEY cfg) = false -> verify_api_key cfg header = Ok tt).
Proof.
  unfold verify_api_key. repeat split.
  - intros Hk Hne. rewrite Hk.
    destruct (opt_str_eqb header (API_KEY cfg)) eqn:E; [|reflexivity].
    apply opt_str_eqb_eq in E. contradiction.
  - intros ->. rewrite (proj2 (opt_str_eqb_eq _ _) eq_refl).
    rewrite andb_false_r. reflexivity.
  - intros ->. reflexivity.
Qed.

Lemma verify_api_key_static_witness :
  verify_api_key {| API_KEY := Some "s3cret"%string |} (Some "guess"%string)
  = Raise (HTTPException 401 "Unauthorized - Invalid API key")
  /\ verify_api_key {| API_KEY := Some "s3cret"%string |} (Some "s3cret"%string)
     = Ok tt
  /\ verify_api_key {| API_KEY := None |} (Some "guess"%string) = Ok tt.
Proof.
  split; [|split].
  - apply (proj1 (verify_api_key_static
                    {| API_KEY := Some "s3cret"%string |} (Some "guess"%string)));
      [reflexivity|discriminate].
  - apply (proj1 (proj2 (verify_api_key_static
                    {| API_KEY := Some "s3cret"%string |} (Some "s3cret"%string))));
      reflexivity.
  - apply (proj2 (proj2 (verify_api_key_static
                    {| API_KEY := None |} (Some "guess"%string))));
      reflexivity.
Defined.

(** ** The model cache *)

Section WorldFacts.

Variable B : Backend.

Lemma bind_keeps {A C : Type} (c : M B A) (k : A -> M B C) (w : World B) :
  fst (c w) = w -> (forall a, fst (k a w) = w) -> fst (bind B c k w) = w.
Proof.
  unfold bind. intros Hc Hk.
  destruct (c w) as [w1 [a|e]]; simpl in Hc; subst w1; [apply Hk|reflexivity].
Qed.

Lemma try_except_keeps {A : Type} (body : M B A) (handler : exn -> M B A)
  (w : World B) :
  fst (body w) = w -> (forall e, fst (handler e w) = w) ->
  fst (try_except B body handler w) = w.
Proof.
  unfold try_except. intros Hb Hh.
  destruct (body w) as [w1 [a|e]]; simpl in Hb; subst w1; [reflexivity|apply Hh].
Qed.

(** A call that finds the cache filled returns it and touches nothing. *)
Lemma load_model_hit (w : World B) (m : ModelObj B) :
  _model B w = Some m -> load_model B w = (w, Ok m).
Proof. unfold load_model. intros ->. reflexivity. Qed.

(** A call that finds the cache empty and succeeds has built one network,
    read one checkpoint and filled the cache with the new object. *)
Lemma load_model_fresh_ok (w w1 : World B) (m : ModelObj B) :
  load_model_fresh B w = (w1, Ok m) ->
  _model B w1 = Some m
  /\ events B w1 = events B w ++ [Ev_BiRefNet; Ev_torch_load WEIGHTS_PATH]
  /\ obj_id B m = count_constructed B w.
Proof.
  unfold load_model_fresh, bind, lift, log_event, set_model, ret.
  destruct (BiRefNet B false) as [net0|e]; [|discriminate].
  destruct (torch_load B WEIGHTS_PATH) as [st|e]; [|discriminate].
  destruct (load_state_dict B net0 (check_state_dict B st)) as [net1|e];
    [|discriminate].
  destruct (eval_to B net1 (DEVICE B)) as [net2|e]; [|discriminate].
  intros H. injection H as <- <-. simpl.
  rewrite <- app_assoc. repeat split.
Qed.

Lemma cutout_rgba_keeps (img : Image) (t : option PyFloat.float)
  (w : World B) (m : ModelObj B) :
  _model B w = Some m -> fst (cutout_rgba B img t w) = w.
Proof.
  intros Hm. unfold cutout_rgba.
  apply bind_keeps; [rewrite (load_model_hit w m Hm); reflexivity|].
  intros model. apply bind_keeps; [reflexivity|]. intros transposed.
  apply bind_keeps; [reflexivity|]. intros mask. reflexivity.
Qed.

Lemma member_png_keeps (zin : ZipFile) (t : option PyFloat.float)
  (name : string) (w : World B) (m : ModelObj B) :
  _model B w = Some m -> fst (member_png B zin t name w) = w.
Proof.
  intros Hm. unfold member_png.
  apply bind_keeps; [reflexivity|]. intros info.
  apply bind_keeps; [reflexivity|]. intros data.
  apply bind_keeps; [reflexivity|]. intros im.
  apply bind_keeps; [apply (cutout_rgba_keeps _ _ _ m Hm)|]. intros rgba.
  reflexivity.
Qed.

Lemma process_member_keeps (zin : ZipFile) (t : option PyFloat.float)
  (zout : ZipOut) (name : string) (w : World B) (m : ModelObj B) :
  _model B w = Some m -> fst (process_member B zin t zout name w) = w.
Proof.
  intros Hm. unfold process_member.
  apply try_except_keeps.
  - apply bind_keeps; [apply (member_png_keeps _ _ _ _ m Hm)|].
    intros png. reflexivity.
  - intros e. reflexivity.
Qed.

Lemma process_members_keeps (zin : ZipFile) (t : option PyFloat.float)
  (members : list string) (w : World B) (m : ModelObj B) :
  _model B w = Some m ->
  forall zout, fst (process_members B zin t members zout w) = w.
Proof.
  intros Hm. induction members as [|name rest IH]; intros zout; simpl.
  - reflexivity.
  - apply bind_keeps; [apply (process_member_keeps _ _ _ _ _ m Hm)|].
    intros zout'. apply IH.
Qed.

Lemma cutout_zip_keeps (file : UploadFile) (t : option PyFloat.float)
  (w : World B) (m : ModelObj B) :
  _model B w = Some m -> fst (cutout_zip B file t w) = w.
Proof.
  intros Hm. unfold cutout_zip.
  destruct (negb (Py.endswith (Py.lower (filename file)) ".zip")); [reflexivity|].
  destruct (ZipFile_open B (content file)) as [zin|e].
  - destruct (filter is_member (namelist zin)) as [|n0 rest] eqn:Em; [reflexivity|].
    apply bind_keeps; [reflexivity|]. intros corrupt.
    destruct (truthy corrupt); [reflexivity|].
    apply bind_keeps; [apply (process_members_keeps _ _ _ _ m Hm)|].
    intros zout. reflexivity.
  - destruct (String.eqb (exn_class e) "BadZipFile"); reflexivity.
Qed.

Lemma run_dependencies_keeps (cfg : Config) (req : Request)
  (ds : list Dependency) (w : World B) :
  fst (run_dependencies B cfg req ds w) = w.
Proof.
  induction ds as [|d rest IH]; simpl; [reflexivity|].
  apply bind_keeps; [destruct d; reflexivity|]. intros _. exact IH.
Qed.

Lemma handle_keeps (cfg : Config) (req : Request) (w : World B) (m : ModelObj B) :
  _model B w = Some m -> fst (handle B cfg req w) = w.
Proof.
  intros Hm. unfold handle.
  destruct (find_route req) as [r|].
  - match goal with
    | |- fst (match ?c w with _ => _ end) = w =>
        assert (Hc : fst (c w) = w); [|destruct (c w) as [w1 [resp|[s d|c0 m0]]]; exact Hc]
    end.
    apply bind_keeps; [apply run_dependencies_keeps|].
    intros _. destruct (endpoint r); simpl; try reflexivity.
    destruct (req_file req) as [f|]; [|reflexivity].
    apply (cutout_zip_keeps _ _ _ m Hm).
  - destruct (existsb (path_matches (req_path req)) app_routes); [reflexivity|].
    destruct (redirect_slashes && negb (String.eqb (req_path req) "/")
              && existsb (path_matches (redirect_path (req_path req))) app_routes);
      reflexivity.
Qed.

Lemma run_requests_keeps (cfg : Config) (reqs : list Request) (w : World B)
  (m : ModelObj B) :
  _model B w = Some m -> run_requests B cfg reqs w = w.
Proof.
  intros Hm. induction reqs as [|req rest IH]; simpl; [reflexivity|].
  rewrite (handle_keeps cfg req w m Hm). exact IH.
Qed.

End WorldFacts.

(** C5: the module starts with no model.  A call of [load_model] that
    returns a model [m] leaves it in the cache; if the cache was empty, that
    call built one network and read one checkpoint.  From then on, through
    any sequence of requests, the process state does not change any more:
    no network is built, no checkpoint read, and every call of [load_model]
    returns the same [m]. *)
Theorem load_model_cached (B : Backend) (cfg : Config) (w w1 : World B)
  (m : ModelObj B) (reqs : list Request) :
  load_model B w = (w1, Ok m) ->
  _model B (@initial_world B) = None
  /\ _model B w1 = Some m
  /\ (_model B w = None ->
      events B w1 = events B w ++ [Ev_BiRefNet; Ev_torch_load WEIGHTS_PATH]
      /\ obj_id B m = count_constructed B w)
  /\ load_model B w1 = (w1, Ok m)
  /\ run_requests B cfg reqs w1 = w1
  /\ load_model B (run_requests B cfg reqs w1) = (run_requests B cfg reqs w1, Ok m).
Proof.
  intros H.
  assert (Hm : _model B w1 = Some m).
  { unfold load_model in H. destruct (_model B w) as [m0|] eqn:E.
    - injection H as <- <-. exact E.
    - apply (load_model_fresh_ok B w w1 m H). }
  split; [reflexivity|]. split; [exact Hm|]. split.
  { intros E. unfold load_model in H. rewrite E in H.
    apply (load_model_fresh_ok B w w1 m H). }
  split; [apply load_model_hit, Hm|].
  rewrite (run_requests_keeps B cfg reqs w1 m Hm).
  split; [reflexivity|apply load_model_hit, Hm].
Qed.

Lemma load_model_cached_witness :
  load_model Tiny.backend initial_world = (Tiny.loaded_world, Ok Tiny.loaded_model)
  /\ load_model Tiny.backend
       (run_requests Tiny.backend Tiny.open_config
          [Tiny.get_ping None; Tiny.post_cutout_zip None Tiny.archive_two_dirs]
          Tiny.loaded_world)
     = (run_requests Tiny.backend Tiny.open_config
          [Tiny.get_ping None; Tiny.post_cutout_zip None Tiny.archive_two_dirs]
          Tiny.loaded_world,
        Ok Tiny.loaded_model).
Proof.
  assert (E : load_model Tiny.backend initial_world
              = (Tiny.loaded_world, Ok Tiny.loaded_model)) by reflexivity.
  split; [exact E|].
  exact (proj2 (proj2 (proj2 (proj2 (proj2
           (load_model_cached Tiny.backend Tiny.open_config initial_world
              Tiny.loaded_world Tiny.loaded_model
              [Tiny.get_ping None; Tiny.post_cutout_zip None Tiny.archive_two_dirs]
              E)))))).
Defined.

(** ** The routes *)

(** C3 fails as stated: the application has more routes than the health
    check and the batch cutout, and not all of them are gated.  [GET /] is
    neither of the two and declares no dependency: with a key configured, a
    request for it that carries no key is answered with a 200; so is a
    request for the documentation page that FastAPI serves. *)
Lemma routes_not_all_gated :
  ~ (forall r, In r app_routes ->
       (endpoint r = endpoint_ping \/ endpoint r = endpoint_cutout_zip)
       /\ gated r = true)
  /\ List.length app_routes = 7%nat
  /\ status_of (snd (handle Tiny.backend Tiny.keyed_config (Tiny.get_root None)
                       initial_world)) = 200
  /\ status_of (snd (handle Tiny.backend Tiny.keyed_config (Tiny.get "/docs" None)
                       initial_world)) = 200.
Proof.
  split; [|split; [reflexivity|split; reflexivity]].
  intros H.
  destruct (H {| route_methods := [GET]; route_path := "/";
                 dependencies := []; endpoint := endpoint_root;
                 include_in_schema := true |}) as [_ Hg].
  - simpl. tauto.
  - discriminate Hg.
Qed.

(** C3, amended: the application serves seven routes: the four that FastAPI
    registers by default for its schema and documentation pages
    ([/openapi.json], [/docs], [/docs/oauth2-redirect], [/redoc]) and the
    three the module declares, [GET /], the API description, [GET /ping],
    the health check, and [POST /cutout_zip], the batch cutout.  The gated
    routes are exactly the health check and the batch cutout: they run the
    key check before the handler, so a request the check refuses gets the
    401 from them.  The five others do not run it and answer every request
    with a 200, whatever key it carries. *)
Theorem routes_and_gates (B : Backend) (cfg : Config) (req : Request) (w : World B) :
  map (fun r => (route_methods r, route_path r, endpoint r, gated r)) app_routes
  = [ ([GET; HEAD], "/openapi.json"%string, endpoint_openapi, false);
      ([GET; HEAD], "/docs"%string, endpoint_swagger_ui_html, false);
      ([GET; HEAD], "/docs/oauth2-redirect"%string, endpoint_swagger_ui_redirect,
       false);
      ([GET; HEAD], "/redoc"%string, endpoint_redoc_html, false);
      ([GET], "/"%string, endpoint_root, false);
      ([GET], "/ping"%string, endpoint_ping, true);
      ([POST], "/cutout_zip"%string, endpoint_cutout_zip, true) ]
  /\ (forall r, In r app_routes ->
        (gated r = true
         <-> endpoint r = endpoint_ping \/ endpoint r = endpoint_cutout_zip))
  /\ (forall r e, find_route req = Some r -> gated r = true ->
        verify_api_key cfg (x_api_key req) = Raise e ->
        handle B cfg req w = (w, Failure 401 "Unauthorized - Invalid API key"))
  /\ (forall r, find_route req = Some r -> gated r = false ->
        exists resp, handle B cfg req w = (w, Success resp)).
Proof.
  split; [reflexivity|]. split; [|split].
  - intros r Hin. simpl in Hin.
    destruct Hin as [<-|[<-|[<-|[<-|[<-|[<-|[<-|[]]]]]]]]; simpl;
      split; intros H; try discriminate H; try reflexivity;
      try (destruct H as [H|H]; discriminate H); tauto.
  - intros r e Hr Hg Hv.
    assert (He : e = HTTPException 401 "Unauthorized - Invalid API key").
    { unfold verify_api_key in Hv.
      destruct (truthy (API_KEY cfg) && negb (opt_str_eqb (x_api_key req) (API_KEY cfg)));
        congruence. }
    subst e. unfold handle. rewrite Hr.
    unfold find_route in Hr. apply find_some in Hr as [Hin _].
    simpl in Hin.
    destruct Hin as [<-|[<-|[<-|[<-|[<-|[<-|[<-|[]]]]]]]]; try discriminate Hg;
      unfold bind; simpl; unfold bind, run_dependency, lift; rewrite Hv; reflexivity.
  - intros r Hr Hg. unfold handle. rewrite Hr.
    unfold find_route in Hr. apply find_some in Hr as [Hin _].
    simpl in Hin.
    destruct Hin as [<-|[<-|[<-|[<-|[<-|[<-|[<-|[]]]]]]]]; try discriminate Hg;
      unfold bind; simpl; eexists; reflexivity.
Qed.

Lemma routes_and_gates_witness :
  handle Tiny.backend Tiny.keyed_config (Tiny.get_ping (Some "guess"%string))
    initial_world
  = (initial_world, Failure 401 "Unauthorized - Invalid API key")
  /\ (exists resp,
        handle Tiny.backend Tiny.keyed_config (Tiny.get_root (Some "guess"%string))
          initial_world
        = (initial_world, Success resp))
  /\ exists resp,
       handle Tiny.backend Tiny.keyed_config (Tiny.get "/openapi.json" None)
         initial_world
       = (initial_world, Success resp).
Proof.
  pose proof (routes_and_gates Tiny.backend Tiny.keyed_config
                (Tiny.get_ping (Some "guess"%string)) initial_world)
    as (_ & _ & H1 & _).
  pose proof (routes_and_gates Tiny.backend Tiny.keyed_config
                (Tiny.get_root (Some "guess"%string)) initial_world)
    as (_ & _ & _ & H2).
  pose proof (routes_and_gates Tiny.backend Tiny.keyed_config
                (Tiny.get "/openapi.json" None) initial_world)
    as (_ & _ & _ & H3).
  split; [|split].
  - apply (H1 {| route_methods := [GET]; route_path := "/ping";
                 dependencies := [Depends_verify_api_key];
                 endpoint := endpoint_ping; include_in_schema := true |}
              (HTTPException 401 "Unauthorized - Invalid API key"));
      reflexivity.
  - apply (H2 {| route_methods := [GET]; route_path := "/";
                 dependencies := []; endpoint := endpoint_root;
                 include_in_schema := true |}); reflexivity.
  - apply (H3 {| route_methods := [GET; HEAD]; route_path := "/openapi.json";
                 dependencies := []; endpoint := endpoint_openapi;
                 include_in_schema := false |}); reflexivity.
Defined.

(** ** The archive pipeline *)

Section PipelineFacts.

Variable B : Backend.

Lemma process_member_entry (zin : ZipFile) (t : option PyFloat.float)
  (zout : ZipOut) (name : string) (w : World B) :
  process_member B zin t zout name w
  = (fst (member_png B zin t name w),
     Ok (zout ++ [entry_for name (snd (member_png B zin t name w))])).
Proof.
  unfold process_member, try_except, bind, writestr, ret.
  destruct (member_png B zin t name w) as [w1 [png|e]]; reflexivity.
Qed.

(** The loop adds to the output, in order, one entry for each member. *)
Lemma process_members_entries (zin : ZipFile) (t : option PyFloat.float)
  (members : list string) :
  forall (zout : ZipOut) (w : World B),
  exists w',
    process_members B zin t members zout w
    = (w', Ok (zout ++ map (fun nr => entry_for (fst nr) (snd nr))
                           (member_results B zin t members w))).
Proof.
  induction members as [|name rest IH]; intros zout w; simpl.
  - exists w. unfold ret. rewrite app_nil_r. reflexivity.
  - unfold bind. rewrite process_member_entry.
    destruct (member_png B zin t name w) as [w1 r]. simpl.
    destruct (IH (zout ++ [entry_for name r]) w1) as [w' Hw'].
    exists w'. rewrite Hw'. rewrite <- app_assoc. reflexivity.
Qed.





End PipelineFacts.





(** C10: the name of a result entry depends on the member's basename only.
    [a/img.png] and [b/img.png] are two qualifying members, both are given
    the entry name [img_cutout.png], and the result archive for an upload
    that holds both has two entries of that name. *)
Theorem out_name_basename_only :
  (forall n1 n2, Py.basename n1 = Py.basename n2 ->
     out_name n1 = out_name n2 /\ error_name n1 = error_name n2)
  /\ "a/img.png"%string <> "b/img.png"%string
  /\ is_member "a/img.png" = true
  /\ is_member "b/img.png" = true
  /\ out_name "a/img.png" = "img_cutout.png"%string
  /\ out_name "b/img.png" = "img_cutout.png"%string
  /\ map fst (Tiny.entries_of (Tiny.batch Tiny.archive_two_dirs))
     = ["img_cutout.png"; "img_cutout.png"]%string
  /\ ~ NoDup (map fst (Tiny.entries_of (Tiny.batch Tiny.archive_two_dirs))).
Proof.
  split.
  { intros n1 n2 H. unfold out_name, error_name. rewrite H. split; reflexivity. }
  split; [discriminate|].
  repeat (split; [vm_compute; reflexivity|]).
  assert (E : map fst (Tiny.entries_of (Tiny.batch Tiny.archive_two_dirs))
              = ["img_cutout.png"; "img_cutout.png"]%string)
    by (vm_compute; reflexivity).
  rewrite E. intros Hnd. inversion Hnd as [|x l Hnotin _]; subst.
  apply Hnotin. left. reflexivity.
Qed.

Lemma out_name_basename_only_witness :
  Py.basename "a/img.png" = Py.basename "x/y/img.png"
  /\ out_name "a/img.png" = out_name "x/y/img.png".
Proof.
  split; [reflexivity|].
  apply (proj1 out_name_basename_only). reflexivity.
Defined.

(** The rejections of [cutout_zip], in the order of its checks, and what
    passes them.  The last check is the truth value of the name that
    [testzip] returned, so it lets the empty name through. *)
Lemma cutout_zip_rejections (B : Backend) (file : UploadFile)
  (t : option PyFloat.float) (w : World B) :
  (Py.endswith (Py.lower (filename file)) ".zip" = false ->
   cutout_zip B file t w
   = (w, Raise (HTTPException 400 "Upload must be a .zip file")))
  /\ (forall e,
        Py.endswith (Py.lower (filename file)) ".zip" = true ->
        ZipFile_open B (content file) = Raise e ->
        exn_class e = "BadZipFile"%string ->
        cutout_zip B file t w = (w, Raise (HTTPException 400 "Invalid ZIP file")))
  /\ (forall zin,
        Py.endswith (Py.lower (filename file)) ".zip" = true ->
        ZipFile_open B (content file) = Ok zin ->
        filter is_member (namelist zin) = [] ->
        cutout_zip B file t w
        = (w, Raise (HTTPException 400 "ZIP contains no supported images")))
  /\ (forall zin n,
        Py.endswith (Py.lower (filename file)) ".zip" = true ->
        ZipFile_open B (content file) = Ok zin ->
        filter is_member (namelist zin) <> [] ->
        testzip zin = Ok (Some n) -> n <> ""%string ->
        cutout_zip B file t w
        = (w, Raise (HTTPException 400
                       ("ZIP integrity check failed for: " ++ n)%string)))
  /\ (forall zin c,
        Py.endswith (Py.lower (filename file)) ".zip" = true ->
        ZipFile_open B (content file) = Ok zin ->
        filter is_member (namelist zin) <> [] ->
        testzip zin = Ok c -> truthy c = false ->
        exists w' body mt hd,
          cutout_zip B file t w = (w', Ok (StreamingResponse body mt hd))).
Proof.
  unfold cutout_zip. repeat split.
  - intros ->. reflexivity.
  - intros e -> -> ->. reflexivity.
  - intros zin -> -> ->. reflexivity.
  - intros zin n -> -> Hm Ht Hn. simpl.
    destruct (filter is_member (namelist zin)) as [|n0 rest]; [contradiction|].
    unfold bind, lift. rewrite Ht.
    assert (Htr : truthy (Some n) = true).
    { simpl. destruct (String.eqb n "") eqn:E; [|reflexivity].
      apply String.eqb_eq in E. contradiction. }
    rewrite Htr. reflexivity.
  - intros zin c -> -> Hm Ht Hc. simpl.
    destruct (filter is_member (namelist zin)) as [|n0 rest]; [contradiction|].
    unfold bind, lift. rewrite Ht, Hc.
    destruct (process_members_entries B zin t (n0 :: rest) [] w) as [w1 Hp].
    rewrite Hp. unfold ret. eauto.
Qed.

(** C8 fails on the code: when the member that [testzip] reports has the
    empty name, [if corrupt_member:] takes the name for false, the request
    is not rejected and the archive is processed. *)
Theorem cutout_zip_corrupt_unnamed_passes (B : Backend) (file : UploadFile)
  (t : option PyFloat.float) (w : World B) (zin : ZipFile) :
  Py.endswith (Py.lower (filename file)) ".zip" = true ->
  ZipFile_open B (content file) = Ok zin ->
  filter is_member (namelist zin) <> [] ->
  testzip zin = Ok (Some ""%string) ->
  exists w' body mt hd,
    cutout_zip B file t w = (w', Ok (StreamingResponse body mt hd)).
Proof.
  intros Hz Ho Hm Ht.
  apply (proj2 (proj2 (proj2 (proj2 (cutout_zip_rejections B file t w))))
           zin (Some ""%string) Hz Ho Hm Ht).
  reflexivity.
Qed.

Lemma cutout_zip_corrupt_unnamed_passes_witness :
  (exists zin,
     Tiny.read_archive Tiny.archive_corrupt_unnamed = Ok zin
     /\ testzip zin = Ok (Some ""%string))
  /\ exists w' body mt hd,
       Tiny.batch Tiny.archive_corrupt_unnamed
       = (w', Ok (StreamingResponse body mt hd)).
Proof.
  pose (zin := match Tiny.read_archive Tiny.archive_corrupt_unnamed with
               | Ok z => z
               | Raise _ => {| filelist := [] |}
               end).
  assert (Ho : Tiny.read_archive Tiny.archive_corrupt_unnamed = Ok zin)
    by (vm_compute; reflexivity).
  assert (Ht : testzip zin = Ok (Some ""%string)) by (vm_compute; reflexivity).
  split; [exists zin; split; assumption|].
  apply (cutout_zip_corrupt_unnamed_passes Tiny.backend
           (Tiny.upload Tiny.archive_corrupt_unnamed) None initial_world zin).
  - reflexivity.
  - exact Ho.
  - vm_compute. discriminate.
  - exact Ht.
Defined.

(** ** Sample evaluations *)

Example splitext_plain : Py.splitext "a/b.tar.PNG" = ("a/b.tar", ".PNG")%string.
Proof. reflexivity. Qed.

Example splitext_dotfile : Py.splitext "a/.png" = ("a/.png", "")%string.
Proof. reflexivity. Qed.

Example splitext_dir_dot : Py.splitext "a.d/readme" = ("a.d/readme", "")%string.
Proof. reflexivity. Qed.

Example basename_nested : Py.basename "a/b/img.png" = "img.png"%string.
Proof. reflexivity. Qed.

Example endswith_zip : Py.endswith (Py.lower "Batch.ZIP") ".zip" = true.
Proof. reflexivity. Qed.

Example is_member_samples :
  map is_member ["a/B.JPG"; "dir.png/"; ".png"; "notes.txt"; "x.webp"]%string
  = [true; false; false; false; true].
Proof. reflexivity. Qed.

Example corrupt_named_rejected :
  snd (Tiny.batch Tiny.archive_corrupt_named)
  = Raise (HTTPException 400 "ZIP integrity check failed for: notes.txt").
Proof. vm_compute. reflexivity. Qed.

Example threshold_half_on_2x1 :
  map (fun x => alpha_at
                  (Tiny.returned Tiny.image_2x1
                     (cutout_rgba Tiny.backend Tiny.image_2x1
                        (Some Tiny.float_half) initial_world)) x 0)
      [0; 1]%nat
  = [x00; xff].
Proof. vm_compute. reflexivity. Qed.

Example no_weights_marks_every_member :
  map fst (Tiny.entries_of
             (cutout_zip Tiny.backend_no_weights
                (Tiny.upload Tiny.archive_one_broken) None initial_world))
  = ["bad.jpg.ERROR.txt"; "ok.png.ERROR.txt"]%string.
Proof. vm_compute. reflexivity. Qed.

Example threshold_two_clears_alpha :
  map (fun x => alpha_at
                  (Tiny.returned Tiny.image_2x1
                     (cutout_rgba Tiny.backend Tiny.image_2x1
                        (Some Tiny.float_two) initial_world)) x 0)
      [0; 1]%nat
  = [x00; x00].
Proof. vm_compute. reflexivity. Qed.

Example threshold_negative_fills_alpha :
  map (fun x => alpha_at
                  (Tiny.returned Tiny.image_2x1
                     (cutout_rgba Tiny.backend Tiny.image_2x1
                        (Some Tiny.float_minus_one) initial_world)) x 0)
      [0; 1]%nat
  = [xff; xff].
Proof. vm_compute. reflexivity. Qed.

Example rotated_member_comes_back_1x2 :
  Tiny.entries_of (Tiny.batch (Tiny.member "a.png" x00 Tiny.img_2x1_rotated))
  = [("a_cutout.png"%string,
      [x01; x02; x0a; x0a; x0a; x0a; xc8; xc8; xc8; xc8])].
Proof. vm_compute. reflexivity. Qed.

(** ** Strings and paths *)

Section StringFacts.

Local Open Scope string_scope.

Lemma append_empty_r (s : string) : s ++ "" = s.
Proof. induction s as [|a s IH]; simpl; [reflexivity|]. rewrite IH. reflexivity. Qed.

Lemma length_append (a b : string) :
  String.length (a ++ b) = (String.length a + String.length b)%nat.
Proof. induction a as [|c a IH]; simpl; [reflexivity|]. rewrite IH. reflexivity. Qed.

Lemma substring_all (s : string) : substring 0 (String.length s) s = s.
Proof. induction s as [|a s IH]; simpl; [reflexivity|]. rewrite IH. reflexivity. Qed.

(** A string is its first [d] characters followed by the rest. *)
Lemma substring_split (p : string) :
  forall d, (d <= String.length p)%nat ->
  substring 0 d p ++ substring d (String.length p - d) p = p.
Proof.
  induction p as [|a p IH]; intros d Hd; simpl in Hd.
  - destruct d; reflexivity.
  - destruct d as [|d]; simpl.
    + rewrite substring_all. reflexivity.
    + rewrite IH by lia. reflexivity.
Qed.

Lemma substring_append_tail (a b : string) :
  substring (String.length a) (String.length b) (a ++ b) = b.
Proof. induction a as [|c a IH]; simpl; [apply substring_all|exact IH]. Qed.

Lemma get_append (a b : string) (k : nat) :
  get k (a ++ b)
  = if Nat.ltb k (String.length a) then get k a else get (k - String.length a) b.
Proof.
  destruct (Nat.ltb k (String.length a)) eqn:E.
  - apply Nat.ltb_lt in E. symmetry. apply append_correct1, E.
  - apply Nat.ltb_ge in E.
    replace k with ((k - String.length a) + String.length a)%nat at 1 by lia.
    symmetry. apply append_correct2.
Qed.

Lemma get_substring (n m : nat) (s : string) (k : nat) :
  get k (substring n m s) = if Nat.ltb k m then get (k + n) s else None.
Proof.
  destruct (Nat.ltb k m) eqn:E.
  - apply Nat.ltb_lt in E. apply substring_correct1, E.
  - apply Nat.ltb_ge in E. apply substring_correct2, E.
Qed.

Lemma length_lower (s : string) : String.length (Py.lower s) = String.length s.
Proof. induction s as [|a s IH]; simpl; [reflexivity|]. rewrite IH. reflexivity. Qed.

Lemma lower_append (a b : string) : Py.lower (a ++ b) = Py.lower a ++ Py.lower b.
Proof. induction a as [|c a IH]; simpl; [reflexivity|]. rewrite IH. reflexivity. Qed.

Lemma lower_substring (s : string) :
  forall n m, Py.lower (substring n m s) = substring n m (Py.lower s).
Proof.
  induction s as [|a s IH]; intros n m; simpl.
  - destruct n, m; reflexivity.
  - destruct n as [|n].
    + destruct m as [|m]; simpl; [reflexivity|]. rewrite IH. reflexivity.
    + apply IH.
Qed.

(** [s.endswith(suffix)] holds exactly of the strings that end with it. *)
Lemma endswith_iff (s suffix : string) :
  Py.endswith s suffix = true <-> exists pre, s = pre ++ suffix.
Proof.
  unfold Py.endswith. split.
  - intros H. apply andb_prop in H as [Hk He].
    apply Nat.leb_le in Hk. apply String.eqb_eq in He.
    exists (substring 0 (String.length s - String.length suffix) s).
    assert (Hd : (String.length s - String.length suffix <= String.length s)%nat)
      by lia.
    pose proof (substring_split s _ Hd) as Hs.
    replace (String.length s - (String.length s - String.length suffix))%nat
      with (String.length suffix) in Hs by lia.
    rewrite He in Hs. symmetry. exact Hs.
  - intros [pre ->]. rewrite length_append.
    replace (String.length pre + String.length suffix - String.length suffix)%nat
      with (String.length pre) by lia.
    rewrite substring_append_tail, String.eqb_refl.
    replace (Nat.leb (String.length suffix) (String.length pre + String.length suffix))
      with true by (symmetry; apply Nat.leb_le; lia).
    reflexivity.
Qed.

(** The result of [rfind] is the start value or an index of the string. *)
Lemma rfind_from_bounds (c : ascii) (s : string) :
  forall i found, (found < i)%Z ->
  Py.rfind_from s c i found = found
  \/ (i <= Py.rfind_from s c i found < i + Z.of_nat (String.length s))%Z.
Proof.
  induction s as [|a s IH]; intros i found Hf; simpl; [left; reflexivity|].
  destruct (IH (i + 1)%Z (if Ascii.eqb a c then i else found)) as [H|H].
  - destruct (Ascii.eqb a c); lia.
  - rewrite H. destruct (Ascii.eqb a c); [right; lia|left; reflexivity].
  - right. lia.
Qed.

(** No character after the index that [rfind] returns is the one sought. *)
Lemma rfind_from_after (c : ascii) (s : string) :
  forall i found k, (found < i)%Z ->
  (Py.rfind_from s c i found < i + Z.of_nat k)%Z ->
  get k s <> Some c.
Proof.
  induction s as [|a s IH]; intros i found k Hf Hr; simpl in *; [discriminate|].
  assert (Hf' : ((if Ascii.eqb a c then i else found) < i + 1)%Z)
    by (destruct (Ascii.eqb a c); lia).
  destruct k as [|k].
  - intros E. injection E as ->. rewrite Ascii.eqb_refl in *.
    destruct (rfind_from_bounds c s (i + 1)%Z i Hf') as [H|H]; lia.
  - apply (IH (i + 1)%Z _ k Hf'). lia.
Qed.

(** When [rfind] moves off its start value, the character sought stands at
    the index returned. *)
Lemma rfind_from_hit (c : ascii) (s : string) :
  forall i found, (found < i)%Z ->
  Py.rfind_from s c i found <> found ->
  get (Z.to_nat (Py.rfind_from s c i found - i)) s = Some c.
Proof.
  induction s as [|a s IH]; intros i found Hf Hne; simpl in *; [contradiction|].
  assert (Hf' : ((if Ascii.eqb a c then i else found) < i + 1)%Z)
    by (destruct (Ascii.eqb a c); lia).
  destruct (rfind_from_bounds c s (i + 1)%Z _ Hf') as [H|H].
  - rewrite H in *. destruct (Ascii.eqb a c) eqn:E; [|contradiction].
    apply Ascii.eqb_eq in E. subst a.
    replace (i - i)%Z with 0%Z by lia. reflexivity.
  - specialize (IH (i + 1)%Z _ Hf').
    assert (Hne' : Py.rfind_from s c (i + 1) (if Ascii.eqb a c then i else found)
                   <> (if Ascii.eqb a c then i else found))
      by (destruct (Ascii.eqb a c); lia).
    specialize (IH Hne').
    replace (Z.to_nat (Py.rfind_from s c (i + 1) (if Ascii.eqb a c then i else found) - i))
      with (S (Z.to_nat (Py.rfind_from s c (i + 1)
                           (if Ascii.eqb a c then i else found) - (i + 1))))
      by lia.
    exact IH.
Qed.

Lemma rfind_range (s : string) (c : ascii) :
  (-1 <= Py.rfind s c < Z.of_nat (String.length s))%Z.
Proof.
  unfold Py.rfind.
  destruct (rfind_from_bounds c s 0%Z (-1)%Z) as [H|H]; lia.
Qed.

End StringFacts.

Section NameFacts.

Local Open Scope string_scope.

Lemma basename_no_sep (p : string) (k : nat) : get k (Py.basename p) <> Some "/"%char.
Proof.
  unfold Py.basename, Py.slice_from. rewrite get_substring.
  destruct (Nat.ltb k _); [|discriminate].
  pose proof (rfind_range p "/") as Hr.
  apply (rfind_from_after "/" p 0%Z (-1)%Z); [lia|].
  fold (Py.rfind p "/"). lia.
Qed.

Lemma splitext_root_prefix (p : string) (k : nat) (c : ascii) :
  get k (fst (Py.splitext p)) = Some c -> get k p = Some c.
Proof.
  unfold Py.splitext.
  destruct (Z.ltb (Py.rfind p "/") (Py.rfind p ".") && _); simpl; [|auto].
  unfold Py.slice_to. rewrite get_substring.
  destruct (Nat.ltb k _); [|discriminate].
  rewrite Nat.add_0_r. auto.
Qed.

Lemma suffix_cutout_no_sep (j : nat) : get j "_cutout.png" <> Some "/"%char.
Proof. do 12 (destruct j as [|j]; [simpl; discriminate|]). simpl. discriminate. Qed.

Lemma suffix_error_no_sep (j : nat) : get j ".ERROR.txt" <> Some "/"%char.
Proof. do 11 (destruct j as [|j]; [simpl; discriminate|]). simpl. discriminate. Qed.

(** [splitext] cuts its argument in two: root and extension put together
    again give the path, and the extension is empty or begins with the
    period. *)
Lemma splitext_join (p : string) :
  fst (Py.splitext p) ++ snd (Py.splitext p) = p
  /\ (snd (Py.splitext p) = "" \/ get 0 (snd (Py.splitext p)) = Some "."%char).
Proof.
  unfold Py.splitext.
  pose proof (rfind_range p "/") as Hs. pose proof (rfind_range p ".") as Hd.
  destruct (Z.ltb (Py.rfind p "/") (Py.rfind p ".")) eqn:E; simpl;
    [|split; [apply append_empty_r|left; reflexivity]].
  apply Z.ltb_lt in E.
  destruct (Py.splitext_loop p _ _); simpl;
    [|split; [apply append_empty_r|left; reflexivity]].
  unfold Py.slice_to, Py.slice_from. split.
  - apply substring_split. lia.
  - right. rewrite get_substring.
    replace (Nat.ltb 0 (String.length p - Z.to_nat (Py.rfind p "."))) with true
      by (symmetry; apply Nat.ltb_lt; lia).
    simpl. pose proof (rfind_from_hit "." p 0%Z (-1)%Z) as Hh.
    fold (Py.rfind p ".") in Hh. rewrite Z.sub_0_r in Hh. apply Hh; lia.
Qed.

(** A name that ends with the separator has no extension. *)
Lemma splitext_dir_no_ext (n : string) :
  Py.endswith n "/" = true -> snd (Py.splitext n) = "".
Proof.
  intros H. apply endswith_iff in H as [pre ->].
  set (n := pre ++ "/").
  assert (Hlen : String.length n = S (String.length pre)).
  { unfold n. rewrite length_append. simpl. lia. }
  assert (Hlast : get (String.length pre) n = Some "/"%char).
  { unfold n. rewrite get_append, Nat.ltb_irrefl, Nat.sub_diag. reflexivity. }
  pose proof (rfind_range n "/") as Hs. pose proof (rfind_range n ".") as Hd.
  assert (Hsep : Py.rfind n "/" = Z.of_nat (String.length pre)).
  { destruct (Z.eq_dec (Py.rfind n "/") (Z.of_nat (String.length pre))) as [|Hne];
      [assumption|exfalso].
    apply (rfind_from_after "/" n 0%Z (-1)%Z (String.length pre)); [lia| |exact Hlast].
    fold (Py.rfind n "/"). lia. }
  unfold Py.splitext.
  replace (Z.ltb (Py.rfind n "/") (Py.rfind n ".")) with false; [reflexivity|].
  symmetry. apply Z.ltb_ge. lia.
Qed.

End NameFacts.

(** X1: the entry names of the result archive are flat: neither a cutout
    name nor an error marker name contains the path separator, whatever the
    member's name in the upload. *)
Theorem entry_names_flat (name : string) (k : nat) :
  get k (out_name name) <> Some "/"%char
  /\ get k (error_name name) <> Some "/"%char.
Proof.
  unfold out_name, error_name. split.
  - rewrite get_append.
    destruct (Nat.ltb k _).
    + destruct (get k (fst (Py.splitext (Py.basename name)))) as [c|] eqn:E;
        [|discriminate].
      apply splitext_root_prefix in E. intros H. injection H as ->.
      exact (basename_no_sep name k E).
    + apply suffix_cutout_no_sep.
  - rewrite get_append.
    destruct (Nat.ltb k _); [apply basename_no_sep|apply suffix_error_no_sep].
Qed.

(** X2: the cutout name is the member's basename with its extension
    replaced: the basename is a stem followed by an extension that is empty
    or begins with the period, and the cutout name is that stem followed by
    [_cutout.png]. *)
Theorem out_name_replaces_extension (name : string) :
  exists stem ext,
    Py.basename name = (stem ++ ext)%string
    /\ out_name name = (stem ++ "_cutout.png")%string
    /\ (ext = ""%string \/ get 0 ext = Some "."%char).
Proof.
  exists (fst (Py.splitext (Py.basename name))), (snd (Py.splitext (Py.basename name))).
  destruct (splitext_join (Py.basename name)) as [Hj He].
  split; [symmetry; exact Hj|]. split; [reflexivity|exact He].
Qed.

(** X3: the test on directory entries never decides: a name that ends with
    the separator has no extension, so a member qualifies exactly when its
    lowered extension is one of the five. *)
Theorem is_member_by_extension (n : string) :
  is_member n = Py.str_in (Py.lower (snd (Py.splitext n))) valid_exts.
Proof.
  unfold is_member. destruct (Py.endswith n "/") eqn:E; [|reflexivity].
  rewrite (splitext_dir_no_ext n E). reflexivity.
Qed.

(** X4: a qualifying member's name ends with one of the five extensions in
    some letter case: it is a non-empty-extension split [stem ++ ext] with
    the lowered [ext] among [valid_exts]. *)
Theorem is_member_name_shape (n : string) :
  is_member n = true ->
  exists stem ext,
    n = (stem ++ ext)%string
    /\ In (Py.lower ext) valid_exts
    /\ get 0 ext = Some "."%char.
Proof.
  intros H. unfold is_member in H. apply andb_prop in H as [_ H].
  exists (fst (Py.splitext n)), (snd (Py.splitext n)).
  destruct (splitext_join n) as [Hj He].
  split; [symmetry; exact Hj|].
  unfold Py.str_in in H. apply existsb_exists in H as [x [Hin Hx]].
  apply String.eqb_eq in Hx. subst x. split; [exact Hin|].
  destruct He as [He|He]; [|exact He].
  rewrite He in Hin. simpl in Hin.
  repeat (destruct Hin as [Hin|Hin]; [discriminate Hin|]). contradiction.
Qed.

Lemma is_member_name_shape_witness :
  is_member "photos/B.JPG" = true
  /\ exists stem ext,
       "photos/B.JPG"%string = (stem ++ ext)%string
       /\ In (Py.lower ext) valid_exts
       /\ get 0 ext = Some "."%char.
Proof.
  split; [reflexivity|].
  apply (is_member_name_shape "photos/B.JPG"). reflexivity.
Defined.

(** X5: the upload's file name passes the first check exactly when it ends
    with [.zip] in some letter case; any other name is answered with the
    400 before the content is looked at. *)
Theorem cutout_zip_filename_check (B : Backend) (file : UploadFile)
  (t : option PyFloat.float) (w : World B) :
  (Py.endswith (Py.lower (filename file)) ".zip" = true
   <-> exists stem sfx,
         filename file = (stem ++ sfx)%string /\ Py.lower sfx = ".zip"%string)
  /\ ((~ exists stem sfx,
          filename file = (stem ++ sfx)%string /\ Py.lower sfx = ".zip"%string) ->
      cutout_zip B file t w
      = (w, Raise (HTTPException 400 "Upload must be a .zip file"))).
Proof.
  assert (Hiff : Py.endswith (Py.lower (filename file)) ".zip" = true
                 <-> exists stem sfx,
                       filename file = (stem ++ sfx)%string
                       /\ Py.lower sfx = ".zip"%string).
  { split.
    - intros H.
      assert (H' := H). unfold Py.endswith in H'.
      apply andb_prop in H' as [Hk He].
      apply Nat.leb_le in Hk. apply String.eqb_eq in He.
      rewrite length_lower in Hk, He. simpl in Hk, He.
      exists (substring 0 (String.length (filename file) - 4) (filename file)),
             (substring (String.length (filename file) - 4) 4 (filename file)).
      split.
      + assert (Hd : (String.length (filename file) - 4
                      <= String.length (filename file))%nat) by lia.
        pose proof (substring_split (filename file) _ Hd) as Hs.
        replace (String.length (filename file)
                 - (String.length (filename file) - 4))%nat with 4%nat in Hs by lia.
        symmetry. exact Hs.
      + rewrite lower_substring. exact He.
    - intros (stem & sfx & Hf & Hl).
      apply endswith_iff. exists (Py.lower stem).
      rewrite Hf, lower_append, Hl. reflexivity. }
  split; [exact Hiff|].
  intros Hn. unfold cutout_zip.
  destruct (Py.endswith (Py.lower (filename file)) ".zip") eqn:E; [|reflexivity].
  exfalso. apply Hn, Hiff. reflexivity.
Qed.

Lemma cutout_zip_filename_check_witness :
  (~ exists stem sfx, "photos.tar"%string = (stem ++ sfx)%string
                      /\ Py.lower sfx = ".zip"%string)
  /\ cutout_zip Tiny.backend {| filename := "photos.tar"; content := [] |} None
       initial_world
     = (initial_world, Raise (HTTPException 400 "Upload must be a .zip file")).
Proof.
  assert (Hn : ~ exists stem sfx, "photos.tar"%string = (stem ++ sfx)%string
                                  /\ Py.lower sfx = ".zip"%string).
  { intros H.
    apply (proj1 (cutout_zip_filename_check Tiny.backend
                    {| filename := "photos.tar"; content := [] |} None
                    initial_world)) in H.
    discriminate H. }
  split; [exact Hn|].
  apply (proj2 (cutout_zip_filename_check Tiny.backend
                  {| filename := "photos.tar"; content := [] |} None initial_world)).
  exact Hn.
Defined.

(** ** More on the mask post-processor *)

Section MaskFacts.

Variable B : Backend.

Lemma predict_mask_ok (model : ModelObj B) (rgb : Image) (sz : nat * nat)
  (soft : Image) :
  predict_mask B model rgb sz = Ok soft -> mode soft = mode_L /\ size soft = sz.
Proof.
  unfold predict_mask, rbind.
  destruct (preprocess B rgb) as [t|e]; [|discriminate].
  destruct (forward B (net B model) _) as [out|e]; [|discriminate].
  destruct (index00 B out) as [pred|e]; [|discriminate].
  destruct (ToPILImage B pred) as [mask|e]; [|discriminate].
  intros H. injection H as <-. split.
  - apply mode_convert.
  - rewrite size_convert. apply size_resize.
Qed.

Lemma mode_apply_threshold (t : option PyFloat.float) (mask : Image) :
  mode mask = mode_L -> mode (apply_threshold t mask) = mode_L.
Proof. destruct t; [reflexivity|auto]. Qed.

Lemma size_apply_threshold (t : option PyFloat.float) (mask : Image) :
  size (apply_threshold t mask) = size mask.
Proof. destruct t; reflexivity. Qed.

(** The colour bands a successful [putalpha] leaves. *)
Lemma putalpha_colours (im alpha out : Image) :
  putalpha B im alpha = Ok out ->
  forall x y k, (k < 3)%nat ->
    band k (px out x y) = band k (px (convert B im mode_RGBA) x y).
Proof.
  unfold putalpha.
  destruct (negb (Mode_eqb (mode alpha) mode_L || Mode_eqb (mode alpha) mode_1));
    [discriminate|].
  destruct (negb (size_eqb (size alpha) (size im))); [discriminate|].
  intros H. injection H as <-. intros x y k Hk. simpl.
  destruct k as [|[|[|k]]]; [reflexivity|reflexivity|reflexivity|lia].
Qed.

Lemma size_eqb_refl (a : nat * nat) : size_eqb a a = true.
Proof. unfold size_eqb. rewrite !Nat.eqb_refl. reflexivity. Qed.

(** [putalpha] takes every L layer of the image's size. *)
Lemma putalpha_accepts (im alpha : Image) :
  mode alpha = mode_L -> size alpha = size im ->
  exists out, putalpha B im alpha = Ok out.
Proof.
  intros Hm Hs. unfold putalpha. rewrite Hm, Hs, size_eqb_refl. simpl.
  eexists. reflexivity.
Qed.

Lemma compare_int_nan (x : PyFloat.float) (p q : Z) :
  PyFloat.compare_int x p = None -> PyFloat.compare_int x q = None.
Proof. destruct x as [s|s| |s m e]; simpl; try discriminate. reflexivity. Qed.

(** [p >= x] stays true when [p] grows. *)
Lemma int_ge_mono (x : PyFloat.float) (p q : Z) :
  p <= q -> PyFloat.int_ge p x = true -> PyFloat.int_ge q x = true.
Proof.
  intros Hpq Hp. unfold PyFloat.int_ge in *.
  destruct (PyFloat.compare_int x q) as [[| |]|] eqn:E; try reflexivity.
  - rewrite (compare_int_Gt_le x q p E Hpq) in Hp. discriminate.
  - rewrite (compare_int_nan x q p E) in Hp. discriminate.
Qed.

End MaskFacts.

(** X6: whatever resolution the network answers in, the soft mask that
    [cutout_rgba] composes has mode L and exactly the requested size. *)
Theorem predict_mask_shape (B : Backend) (model : ModelObj B) (rgb : Image)
  (sz : nat * nat) (soft : Image) :
  predict_mask B model rgb sz = Ok soft -> mode soft = mode_L /\ size soft = sz.
Proof.
  intros H. destruct (predict_mask_ok B model rgb sz soft H) as [Hm Hs].
  split; [exact Hm|exact Hs].
Qed.

Lemma predict_mask_shape_witness :
  let rgb := convert Tiny.backend Tiny.image_2x1 mode_RGB in
  let run := predict_mask Tiny.backend Tiny.loaded_model rgb (2, 1)%nat in
  run = Ok (match run with Ok m => m | Raise _ => rgb end)
  /\ size (match run with Ok m => m | Raise _ => rgb end) = (2, 1)%nat.
Proof.
  intros rgb run.
  assert (E : run = Ok (match run with Ok m => m | Raise _ => rgb end))
    by (vm_compute; reflexivity).
  split; [exact E|].
  exact (proj2 (predict_mask_shape Tiny.backend Tiny.loaded_model rgb (2, 1)%nat _ E)).
Defined.

(** X7: the compositing at the end of [cutout_rgba] never fails.  Once the
    model load, the EXIF transposition of line 97 and the prediction have
    succeeded, [putalpha] goes through, with or without threshold; and an
    exception out of [cutout_rgba] is the one the load raised, the one
    [exif_transpose] raised (a malformed EXIF block), or the one the
    prediction raised. *)
Theorem cutout_rgba_failures (B : Backend) (img : Image)
  (t : option PyFloat.float) (w : World B) :
  (forall w1 model tr soft,
     load_model B w = (w1, Ok model) ->
     exif_transpose img = Ok tr ->
     predict_mask B model (convert B tr mode_RGB)
       (size (convert B tr mode_RGB)) = Ok soft ->
     exists out, cutout_rgba B img t w = (w1, Ok out))
  /\ (forall w' e,
        cutout_rgba B img t w = (w', Raise e) ->
        load_model B w = (w', Raise e)
        \/ exists model,
             load_model B w = (w', Ok model)
             /\ (exif_transpose img = Raise e
                 \/ exists tr,
                      exif_transpose img = Ok tr
                      /\ predict_mask B model (convert B tr mode_RGB)
                           (size (convert B tr mode_RGB)) = Raise e)).
Proof.
  split.
  - intros w1 model tr soft Hl Ht Hp.
    destruct (predict_mask_ok B _ _ _ _ Hp) as [Hm Hs].
    destruct (putalpha_accepts B (copy (convert B tr mode_RGB))
                (apply_threshold t soft)) as [out Ho].
    + apply mode_apply_threshold, Hm.
    + rewrite size_apply_threshold. exact Hs.
    + exists out. unfold cutout_rgba, bind, lift. rewrite Hl, Ht, Hp. rewrite Ho.
      reflexivity.
  - intros w' e H. unfold cutout_rgba, bind, lift in H.
    destruct (load_model B w) as [w1 [model|e1]] eqn:El; [|left; congruence].
    right. exists model.
    destruct (exif_transpose img) as [tr|e0] eqn:Et;
      [|split; [congruence|left; congruence]].
    destruct (predict_mask B model _ _) as [soft|e2] eqn:Ep.
    + exfalso.
      destruct (predict_mask_ok B _ _ _ _ Ep) as [Hm Hs].
      destruct (putalpha_accepts B (copy (convert B tr mode_RGB))
                  (apply_threshold t soft)) as [out Ho].
      * apply mode_apply_threshold, Hm.
      * rewrite size_apply_threshold. exact Hs.
      * rewrite Ho in H. discriminate H.
    + split; [congruence|]. right. exists tr. split; [reflexivity|congruence].
Qed.

Lemma cutout_rgba_failures_witness :
  let run := cutout_rgba Tiny.backend Tiny.image_2x1_bad_exif None initial_world in
  run = (fst run, Raise Tiny.malformed_exif)
  /\ exists model,
       load_model Tiny.backend initial_world = (fst run, Ok model)
       /\ exif_transpose Tiny.image_2x1_bad_exif = Raise Tiny.malformed_exif.
Proof.
  intros run.
  assert (E : run = (fst run, Raise Tiny.malformed_exif))
    by (vm_compute; reflexivity).
  split; [exact E|].
  destruct (proj2 (cutout_rgba_failures Tiny.backend Tiny.image_2x1_bad_exif None
                     initial_world) _ _ E) as [H|(model & Hl & H)].
  - vm_compute in H. discriminate H.
  - exists model. split; [exact Hl|reflexivity].
Defined.

(** X8: without a threshold the alpha band of the result is the soft mask,
    sample for sample. *)
Theorem cutout_rgba_soft_alpha (B : Backend) (img : Image) (w w' : World B)
  (out : Image) :
  cutout_rgba B img None w = (w', Ok out) ->
  exists model tr soft,
    load_model B w = (w', Ok model)
    /\ exif_transpose img = Ok tr
    /\ predict_mask B model (convert B tr mode_RGB)
         (size (convert B tr mode_RGB)) = Ok soft
    /\ forall x y, alpha_at out x y = band 0 (px soft x y).
Proof.
  intros H.
  destruct (cutout_rgba_ok B img None w w' out H)
    as (model & tr & soft & Hl & Ht & Hp & Ha).
  exists model, tr, soft. split; [exact Hl|]. split; [exact Ht|]. split; [exact Hp|].
  apply (putalpha_ok B _ _ _ Ha).
Qed.

Lemma cutout_rgba_soft_alpha_witness :
  let run := cutout_rgba Tiny.backend Tiny.image_2x1 None initial_world in
  run = (fst run, Ok (Tiny.returned Tiny.image_2x1 run))
  /\ exists model tr soft,
       load_model Tiny.backend initial_world = (fst run, Ok model)
       /\ exif_transpose Tiny.image_2x1 = Ok tr
       /\ predict_mask Tiny.backend model (convert Tiny.backend tr mode_RGB)
            (size (convert Tiny.backend tr mode_RGB))
          = Ok soft
       /\ forall x y,
            alpha_at (Tiny.returned Tiny.image_2x1 run) x y = band 0 (px soft x y).
Proof.
  intros run.
  assert (E : run = (fst run, Ok (Tiny.returned Tiny.image_2x1 run)))
    by (vm_compute; reflexivity).
  split; [exact E|].
  exact (cutout_rgba_soft_alpha Tiny.backend Tiny.image_2x1 initial_world
           (fst run) (Tiny.returned Tiny.image_2x1 run) E).
Defined.

(** X9: the colour bands of the result are those of the EXIF-transposed
    input after its conversion to RGB and promotion to RGBA; they depend
    neither on the threshold nor on what the network predicted. *)
Theorem cutout_rgba_colours (B : Backend) (img : Image)
  (t : option PyFloat.float) (w w' : World B) (out : Image) :
  cutout_rgba B img t w = (w', Ok out) ->
  exists tr,
    exif_transpose img = Ok tr
    /\ forall x y k, (k < 3)%nat ->
         band k (px out x y)
         = band k (px (convert B (convert B tr mode_RGB) mode_RGBA) x y).
Proof.
  intros H.
  destruct (cutout_rgba_ok B img t w w' out H)
    as (model & tr & soft & _ & Ht & _ & Ha).
  exists tr. split; [exact Ht|].
  apply (putalpha_colours B _ _ _ Ha).
Qed.

Lemma cutout_rgba_colours_witness :
  let run := cutout_rgba Tiny.backend Tiny.image_2x1 (Some Tiny.float_half)
               initial_world in
  run = (fst run, Ok (Tiny.returned Tiny.image_2x1 run))
  /\ band 0 (px (Tiny.returned Tiny.image_2x1 run) 1 0) = xc8.
Proof.
  intros run.
  assert (E : run = (fst run, Ok (Tiny.returned Tiny.image_2x1 run)))
    by (vm_compute; reflexivity).
  split; [exact E|].
  destruct (cutout_rgba_colours Tiny.backend Tiny.image_2x1 (Some Tiny.float_half)
              initial_world (fst run) _ E) as (tr & Ht & Hc).
  rewrite (Hc 1%nat 0%nat 0%nat) by lia.
  injection Ht as <-. reflexivity.
Defined.

(** X10: a NaN threshold makes the whole result transparent: every
    comparison [p >= nan] is false, so every alpha sample is 0. *)
Theorem cutout_rgba_nan_threshold (B : Backend) (img : Image) (w w' : World B)
  (out : Image) :
  cutout_rgba B img (Some S754_nan) w = (w', Ok out) ->
  forall x y, alpha_at out x y = x00.
Proof.
  intros H x y.
  destruct (cutout_rgba_ok B img _ w w' out H)
    as (model & tr & soft & _ & _ & _ & Ha).
  destruct (putalpha_ok B _ _ _ Ha) as (_ & _ & Halpha).
  rewrite Halpha, band0_threshold. reflexivity.
Qed.

Lemma cutout_rgba_nan_threshold_witness :
  let run := cutout_rgba Tiny.backend Tiny.image_2x1 (Some S754_nan) initial_world in
  run = (fst run, Ok (Tiny.returned Tiny.image_2x1 run))
  /\ alpha_at (Tiny.returned Tiny.image_2x1 run) 1 0 = x00.
Proof.
  intros run.
  assert (E : run = (fst run, Ok (Tiny.returned Tiny.image_2x1 run)))
    by (vm_compute; reflexivity).
  split; [exact E|].
  exact (cutout_rgba_nan_threshold Tiny.backend Tiny.image_2x1 initial_world
           (fst run) _ E 1%nat 0%nat).
Defined.

(** X11: thresholding is monotone in the mask: of two pixels, the one with
    the larger (or equal) soft mask sample never gets the smaller alpha. *)
Theorem cutout_rgba_threshold_monotone (B : Backend) (img : Image)
  (t : PyFloat.float) (w w' : World B) (out : Image) :
  cutout_rgba B img (Some t) w = (w', Ok out) ->
  exists model tr soft,
    load_model B w = (w', Ok model)
    /\ exif_transpose img = Ok tr
    /\ predict_mask B model (convert B tr mode_RGB)
         (size (convert B tr mode_RGB)) = Ok soft
    /\ forall x1 y1 x2 y2,
         int_of_byte (band 0 (px soft x1 y1)) <= int_of_byte (band 0 (px soft x2 y2)) ->
         int_of_byte (alpha_at out x1 y1) <= int_of_byte (alpha_at out x2 y2).
Proof.
  intros H.
  destruct (cutout_rgba_ok B img _ w w' out H)
    as (model & tr & soft & Hl & Ht & Hp & Ha).
  exists model, tr, soft. split; [exact Hl|]. split; [exact Ht|]. split; [exact Hp|].
  destruct (putalpha_ok B _ _ _ Ha) as (_ & _ & Halpha).
  intros x1 y1 x2 y2 Hle. rewrite !Halpha, !band0_threshold.
  destruct (PyFloat.int_ge (int_of_byte (band 0 (px soft x1 y1))) _) eqn:E1.
  - rewrite (int_ge_mono _ _ _ Hle E1). lia.
  - destruct (PyFloat.int_ge (int_of_byte (band 0 (px soft x2 y2))) _);
      [change (0 <= 255)|change (0 <= 0)]; lia.
Qed.

Lemma cutout_rgba_threshold_monotone_witness :
  let run := cutout_rgba Tiny.backend Tiny.image_2x1 (Some Tiny.float_half)
               initial_world in
  run = (fst run, Ok (Tiny.returned Tiny.image_2x1 run))
  /\ exists model tr soft,
       load_model Tiny.backend initial_world = (fst run, Ok model)
       /\ exif_transpose Tiny.image_2x1 = Ok tr
       /\ predict_mask Tiny.backend model (convert Tiny.backend tr mode_RGB)
            (size (convert Tiny.backend tr mode_RGB))
          = Ok soft
       /\ forall x1 y1 x2 y2,
            int_of_byte (band 0 (px soft x1 y1))
            <= int_of_byte (band 0 (px soft x2 y2)) ->
            int_of_byte (alpha_at (Tiny.returned Tiny.image_2x1 run) x1 y1)
            <= int_of_byte (alpha_at (Tiny.returned Tiny.image_2x1 run) x2 y2).
Proof.
  intros run.
  assert (E : run = (fst run, Ok (Tiny.returned Tiny.image_2x1 run)))
    by (vm_compute; reflexivity).
  split; [exact E|].
  exact (cutout_rgba_threshold_monotone Tiny.backend Tiny.image_2x1
           Tiny.float_half initial_world (fst run) _ E).
Defined.

(** ** More on the model cache *)

(** X12: a failed load is not cached.  When [load_model] raises, the cache
    was empty and stays empty, the attempt is on record, and the next call
    builds the network anew. *)
Theorem load_model_failure_not_cached (B : Backend) (w w' : World B) (e : exn) :
  load_model B w = (w', Raise e) ->
  _model B w = None
  /\ _model B w' = None
  /\ (exists more, events B w' = events B w ++ Ev_BiRefNet :: more)
  /\ load_model B w' = load_model_fresh B w'.
Proof.
  intros H. unfold load_model in H.
  destruct (_model B w) as [m|] eqn:Em; [discriminate|].
  assert (Hw : _model B w' = None
               /\ exists more, events B w' = events B w ++ Ev_BiRefNet :: more).
  { revert H.
    unfold load_model_fresh, bind, lift, log_event, set_model, ret.
    destruct (BiRefNet B false) as [net0|e0].
    - destruct (torch_load B WEIGHTS_PATH) as [st|e1].
      + destruct (load_state_dict B net0 (check_state_dict B st)) as [net1|e2].
        * destruct (eval_to B net1 (DEVICE B)) as [net2|e3]; [discriminate|].
          intros H. injection H as <- _. simpl. rewrite <- app_assoc.
          split; [exact Em|eexists; reflexivity].
        * intros H. injection H as <- _. simpl. rewrite <- app_assoc.
          split; [exact Em|eexists; reflexivity].
      + intros H. injection H as <- _. simpl. rewrite <- app_assoc.
        split; [exact Em|eexists; reflexivity].
    - intros H. injection H as <- _. simpl.
      split; [exact Em|eexists; reflexivity]. }
  destruct Hw as [Hm He].
  split; [reflexivity|]. split; [exact Hm|]. split; [exact He|].
  unfold load_model. rewrite Hm. reflexivity.
Qed.

Lemma load_model_failure_not_cached_witness :
  let run := load_model Tiny.backend_no_weights initial_world in
  run = (fst run, Raise (PyExc "FileNotFoundError" "No such file or directory"))
  /\ _model Tiny.backend_no_weights (fst run) = None.
Proof.
  intros run.
  assert (E : run = (fst run,
                     Raise (PyExc "FileNotFoundError" "No such file or directory")))
    by (vm_compute; reflexivity).
  split; [exact E|].
  exact (proj1 (proj2 (load_model_failure_not_cached Tiny.backend_no_weights
                         initial_world (fst run) _ E))).
Defined.

(** ** More on the archive pipeline *)

Section BatchFacts.

Variable B : Backend.







Lemma testzip_loop_some (zin : ZipFile) (todo : list ZipInfo) (n : string) :
  testzip_loop zin todo = Ok (Some n) ->
  In n (map zi_filename todo)
  /\ exists e, open_read zin n = Raise e /\ exn_class e = "BadZipFile"%string.
Proof.
  induction todo as [|z rest IH]; simpl; intros H; [discriminate|].
  destruct (open_read zin (zi_filename z)) as [data|e] eqn:E.
  - destruct (IH H) as [Hin He]. split; [right; exact Hin|exact He].
  - destruct (String.eqb (exn_class e) "BadZipFile") eqn:Ec; [|discriminate].
    injection H as <-. split; [left; reflexivity|].
    exists e. split; [exact E|apply String.eqb_eq, Ec].
Qed.

End BatchFacts.







(** X16: the member that the integrity test reports is a member of the
    archive, and reading it raises [BadZipFile]. *)
Theorem testzip_reports_unreadable (zin : ZipFile) (n : string) :
  testzip zin = Ok (Some n) ->
  In n (namelist zin)
  /\ exists e, open_read zin n = Raise e /\ exn_class e = "BadZipFile"%string.
Proof.
  intros H. unfold testzip in H.
  destruct (testzip_loop_some zin (filelist zin) n H) as [Hin He].
  split; [exact Hin|exact He].
Qed.

Lemma testzip_reports_unreadable_witness :
  let zin := match Tiny.read_archive Tiny.archive_corrupt_named with
             | Ok z => z
             | Raise _ => {| filelist := [] |}
             end in
  testzip zin = Ok (Some "notes.txt"%string)
  /\ In "notes.txt"%string (namelist zin).
Proof.
  intros zin.
  assert (Ht : testzip zin = Ok (Some "notes.txt"%string)) by (vm_compute; reflexivity).
  split; [exact Ht|].
  exact (proj1 (testzip_reports_unreadable zin "notes.txt" Ht)).
Defined.



(** ** The handlers and the process state *)

Lemma Method_eqb_eq (a b : Method) : Method_eqb a b = true -> a = b.
Proof. destruct a, b; simpl; congruence. Qed.

(** A request leaves the process state as it was, unless it is a batch that
    passed the key check while no model was cached. *)
Lemma handle_frame (B : Backend) (cfg : Config) (req : Request) (w : World B) :
  fst (handle B cfg req w) = w
  \/ (req_method req = POST /\ req_path req = "/cutout_zip"%string
      /\ verify_api_key cfg (x_api_key req) = Ok tt /\ _model B w = None).
Proof.
  unfold handle.
  destruct (find_route req) as [r|] eqn:Er.
  - unfold find_route in Er. apply find_some in Er as [Hin Hmatch].
    unfold full_match, path_matches in Hmatch.
    apply andb_prop in Hmatch as [Hpath Hmeth].
    apply String.eqb_eq in Hpath.
    apply existsb_exists in Hmeth as (m0 & Hm0 & Hmeth).
    apply Method_eqb_eq in Hmeth.
    simpl in Hin.
    destruct Hin as [<-|[<-|[<-|[<-|[<-|[<-|[<-|[]]]]]]]]; simpl in Hm0, Hpath;
      try (left; reflexivity).
    + left. simpl. unfold bind, run_dependency, lift.
      destruct (verify_api_key cfg (x_api_key req)) as [[]|[s d|c m]]; reflexivity.
    + simpl. unfold bind, run_dependency, lift.
      destruct (verify_api_key cfg (x_api_key req)) as [[]|[s d|c m]] eqn:Ev;
        [|left; reflexivity|left; reflexivity].
      simpl. destruct (req_file req) as [f|]; [|left; reflexivity].
      destruct (_model B w) as [m|] eqn:Em.
      * left. pose proof (cutout_zip_keeps B f (req_threshold req) w m Em) as Hk.
        destruct (cutout_zip B f (req_threshold req) w) as [w1 [resp|[s d|c m1]]];
          exact Hk.
      * right. destruct Hm0 as [Hm0|[]]. repeat split; congruence.
  - left.
    destruct (existsb (path_matches (req_path req)) app_routes); [reflexivity|].
    destruct (redirect_slashes && negb (String.eqb (req_path req) "/")
              && existsb (path_matches (redirect_path (req_path req))) app_routes);
      reflexivity.
Qed.

(** X18: only a batch can load the model.  A request that changes the
    process state is a [POST /cutout_zip] that passed the key check at a
    time when no model was cached; the description, the health check, a
    refused request and every request after the load leave the state as it
    was. *)
Theorem only_batches_load_model (B : Backend) (cfg : Config) (req : Request)
  (w : World B) :
  fst (handle B cfg req w) <> w ->
  req_method req = POST
  /\ req_path req = "/cutout_zip"%string
  /\ verify_api_key cfg (x_api_key req) = Ok tt
  /\ _model B w = None.
Proof.
  intros Hne. destruct (handle_frame B cfg req w) as [H|H].
  - contradiction.
  - exact H.
Qed.

Lemma only_batches_load_model_witness :
  fst (handle Tiny.backend Tiny.open_config
         (Tiny.post_cutout_zip None Tiny.archive_two_dirs) initial_world)
  <> initial_world
  /\ verify_api_key Tiny.open_config None = Ok tt.
Proof.
  assert (Hne : fst (handle Tiny.backend Tiny.open_config
                       (Tiny.post_cutout_zip None Tiny.archive_two_dirs)
                       initial_world) <> initial_world).
  { intros H. apply (f_equal (_model Tiny.backend)) in H.
    vm_compute in H. discriminate H. }
  split; [exact Hne|].
  exact (proj1 (proj2 (proj2 (only_batches_load_model Tiny.backend Tiny.open_config
                                (Tiny.post_cutout_zip None Tiny.archive_two_dirs)
                                initial_world Hne)))).
Defined.

Example dispatch_samples :
  map (fun req => status_of (snd (handle Tiny.backend Tiny.open_config req
                                    initial_world)))
      [ Tiny.get "/ping" None; Tiny.get "/ping/" None; Tiny.get "/docs" None;
        Tiny.get "/redoc" None; Tiny.get "/docs/oauth2-redirect" None;
        Tiny.get "/cutout_zip" None; Tiny.get "/nothing" None;
        Tiny.get "//" None;
        {| req_method := HEAD; req_path := "/docs"; x_api_key := None;
           req_file := None; req_threshold := None |};
        {| req_method := HEAD; req_path := "/ping"; x_api_key := None;
           req_file := None; req_threshold := None |};
        {| req_method := POST; req_path := "/cutout_zip"; x_api_key := None;
           req_file := None; req_threshold := None |} ]%string
  = [200; 307; 200; 200; 200; 405; 404; 404; 200; 405; 422].
Proof. vm_compute. reflexivity. Qed.

Example openapi_documents_module_routes :
  snd (handle Tiny.backend Tiny.keyed_config (Tiny.get "/openapi.json" None)
         initial_world)
  = Success (OpenAPIResponse
               [("title", JStr "ToonOut API"); ("version", JStr "1.0.0");
                ("description",
                 JStr "Background removal API for anime/cartoon images using ToonOut")]
               ["/"; "/ping"; "/cutout_zip"])%string.
Proof. vm_compute. reflexivity. Qed.

Example malformed_exif_member_gets_marker :
  Tiny.entries_of (Tiny.batch (Tiny.member "a.png" x00 Tiny.img_2x1_bad_exif))
  = [("a.png.ERROR.txt"%string, list_byte_of_string "not a TIFF file")].
Proof. vm_compute. reflexivity. Qed.
